(** * Heading inference of process_pdfs.py: a shallow embedding

    The embedding follows [src/process_pdfs.py] function by function:
    [clean_text], [is_likely_heading], [extract_font_statistics],
    [determine_heading_levels], [extract_title_from_pdf] and
    [extract_outline].  The second file, [src/app/process_pdfs.py], is an
    earlier variant with a single [extract_outline]; it is modelled
    further down, from the opened document on.

    Conventions of the model.
    - A Python [str] is a list of characters; a character is a code point
      below 256 (Latin-1), carried by [ascii].  The character classes of
      [re] and [str] ([\s], [\d], [\w], [isupper], [lower]) are those of
      CPython on that range.
    - A Python [float] (font size, coordinates, ratios) is an exact
      rational in canonical form ([Qc]), so that equality of sizes is
      Leibniz equality, as dictionary keys need.  Rounding errors of
      binary floating point are outside the model.
    - The document handed over by PyMuPDF is a record: its metadata title
      and, per page, the blocks, lines and spans of [get_text].  Opening
      and closing the file are outside the model; [extract_outline] starts
      from the opened document.
    - Exceptions raised inside the [try] block are values of [result]. *)

From Stdlib Require Import QArith Qcanon Qcabs Ascii String DecimalString DecimalNat.
From stdpp Require Import base numbers list sorting gmap.

Local Open Scope Qc_scope.

(** ** Characters and strings *)

Abbreviation text := (list ascii).

Definition py (s : string) : text := list_ascii_of_string s.

Definition code (c : ascii) : N := N_of_ascii c.

Definition in_range (lo hi : N) (c : ascii) : bool :=
  ((lo <=? code c) && (code c <=? hi))%N.

(** [str.isspace] and [\s]. *)
Definition is_space (c : ascii) : bool :=
  in_range 9 13 c || in_range 28 32 c || (code c =? 133)%N || (code c =? 160)%N.

(** [\d]. *)
Definition is_digit (c : ascii) : bool := in_range 48 57 c.

(** [[A-Z]]. *)
Definition is_AZ (c : ascii) : bool := in_range 65 90 c.

(** [\w]. *)
Definition is_word (c : ascii) : bool :=
  in_range 48 57 c || in_range 65 90 c || (code c =? 95)%N || in_range 97 122 c
  || (code c =? 170)%N || in_range 178 179 c || (code c =? 181)%N
  || in_range 185 186 c || in_range 188 190 c || in_range 192 214 c
  || in_range 216 246 c || in_range 248 255 c.

(** [c.isupper()] for a single character. *)
Definition is_upper (c : ascii) : bool :=
  in_range 65 90 c || in_range 192 214 c || in_range 216 222 c.

(** [c.lower()]. *)
Definition lower_char (c : ascii) : ascii :=
  if is_upper c then ascii_of_N (code c + 32) else c.

Definition lower (s : text) : text := map lower_char s.

Fixpoint drop_while {A} (p : A -> bool) (l : list A) : list A :=
  match l with
  | [] => []
  | x :: l' => if p x then drop_while p l' else l
  end.

(** [s.strip()]. *)
Definition lstrip (s : text) : text := drop_while is_space s.
Definition rstrip (s : text) : text := rev (drop_while is_space (rev s)).
Definition strip (s : text) : text := rstrip (lstrip s).

(** [s.split()]: the maximal runs of non-whitespace characters.  [cur] is
    the word being read, reversed. *)
Fixpoint split_aux (cur : text) (s : text) : list text :=
  match s with
  | [] => match cur with [] => [] | _ => [rev cur] end
  | c :: s' =>
      if is_space c
      then match cur with
           | [] => split_aux [] s'
           | _ => rev cur :: split_aux [] s'
           end
      else split_aux (c :: cur) s'
  end.

Definition split (s : text) : list text := split_aux [] s.

(** [a in b] on strings. *)
Fixpoint is_prefix (a b : text) : bool :=
  match a, b with
  | [], _ => true
  | _ :: _, [] => false
  | x :: a', y :: b' => bool_decide (x = y) && is_prefix a' b'
  end.

Fixpoint is_substring (a b : text) : bool :=
  is_prefix a b || match b with [] => false | _ :: b' => is_substring a b' end.

(** [re.sub(r'\s+', ' ', s)]: every maximal run of whitespace becomes one
    space.  [in_run] tells that the previous character was whitespace. *)
Fixpoint collapse_ws_aux (in_run : bool) (s : text) : text :=
  match s with
  | [] => []
  | c :: s' =>
      if is_space c
      then (if in_run then collapse_ws_aux true s'
            else " "%char :: collapse_ws_aux true s')
      else c :: collapse_ws_aux false s'
  end.

Definition collapse_ws (s : text) : text := collapse_ws_aux false s.

(** The characters kept by the second substitution of [clean_text]: word
    characters, whitespace, and the punctuation - . , : ; ! ? ( ) [ ] / & with
    both quotes (double quote is code 34, single quote is code 39). *)
Definition is_allowed (c : ascii) : bool :=
  is_word c || is_space c
  || bool_decide (c ∈ py "-.,:;!?()[]/&") || (code c =? 34)%N || (code c =? 39)%N.

(** [clean_text(text)]. *)
Definition clean_text (t : text) : text :=
  match t with
  | [] => []
  | _ => filter (λ c, is_allowed c = true) (collapse_ws (strip t))
  end.

(** ** Regular expressions

    [re.match(pattern, s)] succeeds iff some prefix of [s] is matched by
    the pattern; the patterns of the program have no back-references or
    look-around, so this is decided by derivatives.  [Dollar] is [$]: it
    holds at the end of the string and just before a final newline.  The
    leading [^] of the patterns is implied by [re.match] and is left out. *)

Inductive regex : Type :=
  | Fail
  | Eps
  | Dollar
  | Cls (p : ascii -> bool)
  | Cat (r1 r2 : regex)
  | Alt (r1 r2 : regex)
  | Star (r : regex).

Definition Plus (r : regex) : regex := Cat r (Star r).
Definition Opt (r : regex) : regex := Alt r Eps.
Definition Chr (c : ascii) : regex := Cls (λ x, bool_decide (x = c)).
Definition Lit (s : string) : regex := foldr (λ c r, Cat (Chr c) r) Eps (py s).

(** Does [r] match the empty string when [rest] is what remains of the
    subject? *)
Fixpoint nullable (rest : text) (r : regex) : bool :=
  match r with
  | Fail => false
  | Eps => true
  | Dollar => match rest with
              | [] => true
              | c :: [] => (code c =? 10)%N
              | _ => false
              end
  | Cls _ => false
  | Cat r1 r2 => nullable rest r1 && nullable rest r2
  | Alt r1 r2 => nullable rest r1 || nullable rest r2
  | Star _ => true
  end.

(** Derivative of [r] by the character [c], which is followed by [rest]. *)
Fixpoint deriv (c : ascii) (rest : text) (r : regex) : regex :=
  match r with
  | Fail | Eps | Dollar => Fail
  | Cls p => if p c then Eps else Fail
  | Cat r1 r2 =>
      if nullable (c :: rest) r1
      then Alt (Cat (deriv c rest r1) r2) (deriv c rest r2)
      else Cat (deriv c rest r1) r2
  | Alt r1 r2 => Alt (deriv c rest r1) (deriv c rest r2)
  | Star r1 => Cat (deriv c rest r1) (Star r1)
  end.

(** [re.match(r, s) is not None]. *)
Fixpoint re_match (r : regex) (s : text) : bool :=
  nullable s r ||
  match s with
  | [] => false
  | c :: s' => re_match (deriv c s' r) s'
  end.

(** [len(re.findall(r'\d', s))]. *)
Definition count_digits (s : text) : nat := length (filter (λ c, is_digit c = true) s).

(** The five [heading_patterns], in the order of the source:
    - numbered sections: one or more groups of digits, an optional dot and
      optional whitespace;
    - all capitals: [A-Z] then at least two of [A-Z\s], up to [$];
    - Chapter, Section, Part or Appendix, whitespace, digits;
    - Roman numerals: one or more of I, V, X, a dot, whitespace;
    - word characters, optional whitespace, a colon, [$]. *)
Definition pat_numbered : regex :=
  Plus (Cat (Plus (Cls is_digit)) (Cat (Opt (Chr ".")) (Star (Cls is_space)))).

Definition pat_all_caps : regex :=
  let cl := Cls (λ c, is_AZ c || is_space c) in
  Cat (Cls is_AZ) (Cat (Cat cl (Cat cl (Star cl))) Dollar).

Definition pat_chapter : regex :=
  Cat (Alt (Lit "Chapter") (Alt (Lit "Section") (Alt (Lit "Part") (Lit "Appendix"))))
      (Cat (Plus (Cls is_space)) (Plus (Cls is_digit))).

Definition pat_roman : regex :=
  Cat (Plus (Cls (λ c, bool_decide (c ∈ py "IVX"))))
      (Cat (Chr ".") (Plus (Cls is_space))).

Definition pat_colon : regex :=
  Cat (Plus (Cls is_word)) (Cat (Star (Cls is_space)) (Cat (Chr ":") Dollar)).

Definition heading_patterns : list regex :=
  [pat_numbered; pat_all_caps; pat_chapter; pat_roman; pat_colon].

(** ** Numbers *)

Definition of_nat (n : nat) : Qc := Q2Qc (inject_Z (Z.of_nat n)).
Definition of_Z (n : Z) : Qc := Q2Qc (inject_Z n).
Definition dec (q : Q) : Qc := Q2Qc q.

(** [round(x, 1)]: the nearest multiple of one tenth, halves to even. *)
Definition round_half_even (q : Q) : Z :=
  let n := Qnum q in
  let d := Z.pos (Qden q) in
  let f := (n / d)%Z in
  let r := (n mod d)%Z in
  match (2 * r ?= d)%Z with
  | Lt => f
  | Gt => (f + 1)%Z
  | Eq => if Z.even f then f else (f + 1)%Z
  end.

Definition round1 (x : Qc) : Qc :=
  Q2Qc (round_half_even (x * of_Z 10) # 10).

Definition sum_Qc (l : list Qc) : Qc := foldr Qcplus 0 l.

(** ** Sorting

    [list.sort] and [sorted] are stable; so is insertion from the right,
    which puts an element before the first one it does not exceed. *)
Section Sorting.
Context {A : Type} (le : A -> A -> bool).

Fixpoint insert_sorted (x : A) (l : list A) : list A :=
  match l with
  | [] => [x]
  | y :: l' => if le x y then x :: l else y :: insert_sorted x l'
  end.

Definition sort_by (l : list A) : list A := foldr insert_sorted [] l.
End Sorting.

(** [sorted(l, reverse=True)] on numbers. *)
Definition desc_le (a b : Qc) : bool := bool_decide (b ≤ a).

Definition sort_desc (l : list Qc) : list Qc := sort_by desc_le l.

(** Order of the tuples [(a, b)] used as sort keys. *)
Definition key_le (k1 k2 : Qc * Qc) : bool :=
  bool_decide (k1.1 < k2.1) || (bool_decide (k1.1 = k2.1) && bool_decide (k1.2 ≤ k2.2)).

(** ** The document as PyMuPDF presents it *)

Record Span := {
  span_text : text;
  span_size : Qc;
  span_font : option text;      (* span.get("font", ...) *)
  span_flags : option Z         (* span.get("flags", ...) *)
}.

Record Line := {
  line_bbox : Qc * Qc * Qc * Qc;   (* x0, y0, x1, y1 *)
  line_spans : list Span
}.

(** A block without the key "lines" (an image block) has [None]. *)
Record Block := { block_lines : option (list Line) }.

Abbreviation Page := (list Block).

Record Document := {
  doc_metadata_title : option text;   (* doc.metadata, key "title" *)
  doc_pages : list Page
}.

Definition bbox_x0 (ln : Line) : Qc := (line_bbox ln).1.1.1.
Definition bbox_y0 (ln : Line) : Qc := (line_bbox ln).1.1.2.

(** The spans of a page in the order of the three nested loops
    [for block / for line / for span], each with its line. *)
Definition block_entries (b : Block) : list (Line * Span) :=
  match block_lines b with
  | None => []
  | Some lns => flat_map (λ ln, map (λ sp, (ln, sp)) (line_spans ln)) lns
  end.

Definition page_entries (p : Page) : list (Line * Span) :=
  flat_map block_entries p.

(** All spans of the document, in the order of [for page in doc] and the
    three loops inside it. *)
Definition doc_spans (d : Document) : list Span :=
  flat_map (λ p, map snd (page_entries p)) (doc_pages d).

(** [enumerate(doc, start=1)]. *)
Definition enumerate_pages (d : Document) : list (nat * Page) :=
  imap (λ i p, (S i, p)) (doc_pages d).

(** ** extract_font_statistics *)

Record FontStats := {
  avg_font_size : Qc;
  most_common_font : Qc * text;
  all_sizes : list Qc
}.

(** [Counter]: keys in insertion order with their counts. *)
Fixpoint counter_add {K} `{EqDecision K} (k : K) (n : nat) (c : list (K * nat))
  : list (K * nat) :=
  match c with
  | [] => [(k, n)]
  | (k', m) :: c' =>
      if decide (k' = k) then (k', (m + n)%nat) :: c' else (k', m) :: counter_add k n c'
  end.

(** [c.most_common(1)[0]]: the first entry with the largest count. *)
Fixpoint most_common1 {K} (best : K * nat) (c : list (K * nat)) : K * nat :=
  match c with
  | [] => best
  | e :: c' => most_common1 (if best.2 <? e.2 then e else best) c'
  end.

Definition stat_step (st : list Qc * list (Qc * text * nat)) (sp : Span)
  : list Qc * list (Qc * text * nat) :=
  let '(font_sizes, font_counts) := st in
  let t := strip (span_text sp) in
  if negb (bool_decide (t = [])) && (2 <? length t) then
    let size := round1 (span_size sp) in
    let font := default [] (span_font sp) in
    (font_sizes ++ [size], counter_add (size, font) (length t) font_counts)
  else st.

Definition collect_stats (d : Document) : list Qc * list (Qc * text * nat) :=
  foldl stat_step ([], []) (doc_spans d).

Definition extract_font_statistics (d : Document) : FontStats :=
  let '(font_sizes, font_counts) := collect_stats d in
  {| avg_font_size :=
       match font_sizes with
       | [] => of_Z 12
       | _ => sum_Qc font_sizes / of_nat (length font_sizes)
       end;
     most_common_font :=
       match font_counts with
       | [] => (of_Z 12, [])
       | e :: c => (most_common1 e c).1
       end;
     all_sizes := sort_desc (remove_dups font_sizes) |}.

(** ** is_likely_heading *)

Definition number_ratio (t : text) : Qc :=
  of_nat (count_digits t) / of_nat (length t).

Definition starts_upper (w : text) : bool :=
  match w with
  | [] => false
  | c :: _ => is_upper c
  end.

Definition is_title_case (t : text) : bool :=
  let words := split t in
  if 2 <=? length words then
    let capitalized_words := length (filter (λ w, starts_upper w = true) words) in
    bool_decide (dec 0.7 ≤ of_nat capitalized_words / of_nat (length words))
  else false.

Definition has_heading_pattern (t : text) : bool :=
  existsb (λ pattern, re_match pattern (strip t)) heading_patterns.

(** The value of [score] when the function reaches its last line. *)
Definition heading_score (t : text) (font_size : Qc) (is_bold : bool)
    (avg_font_size : Qc) : nat :=
  let size_threshold := avg_font_size * dec 1.1 in
  let is_large_font := bool_decide (size_threshold ≤ font_size) in
  let is_significantly_larger := bool_decide (avg_font_size * dec 1.3 ≤ font_size) in
  ((if is_large_font then 2 else 0)
   + (if is_significantly_larger then 2 else 0)
   + (if is_bold then 2 else 0)
   + (if has_heading_pattern t then 3 else 0)
   + (if is_title_case t then 1 else 0)
   + (if length (split t) <=? 8 then 1 else 0))%nat.

Definition is_likely_heading (t : text) (font_size : Qc) (is_bold : bool)
    (avg_font_size : Qc) (doc_stats : FontStats) : bool :=
  if bool_decide (t = []) || (length (strip t) <? 3) then false
  else if 20 <? length (split t) then false
  else if bool_decide (dec 0.3 < number_ratio t) then false
  else 3 <=? heading_score t font_size is_bold avg_font_size.

(** ** determine_heading_levels *)

Record TextBlock := {
  tb_text : text;
  tb_page : nat;
  tb_x : Qc;
  tb_y : Qc;
  tb_size : Qc;
  tb_font : text;
  tb_bold : bool;
  tb_italic : bool;
  tb_flags : Z;
  tb_level : option text     (* the key "level", absent until assigned *)
}.

Definition set_level (lv : text) (h : TextBlock) : TextBlock :=
  {| tb_text := tb_text h; tb_page := tb_page h; tb_x := tb_x h; tb_y := tb_y h;
     tb_size := tb_size h; tb_font := tb_font h; tb_bold := tb_bold h;
     tb_italic := tb_italic h; tb_flags := tb_flags h; tb_level := Some lv |}.

(** [str(n)] for a non-negative integer. *)
Definition str_of_nat (n : nat) : text :=
  py (NilEmpty.string_of_uint (Nat.to_uint n)).

(** The f-string [H{level_counter}]. *)
Definition level_name (level_counter : nat) : text := py "H" ++ str_of_nat level_counter.

(** [size_groups[heading["size"]].append(heading)] on a [defaultdict(list)]. *)
Definition group_step (size_groups : gmap Qc (list TextBlock)) (heading : TextBlock)
  : gmap Qc (list TextBlock) :=
  <[tb_size heading := default [] (size_groups !! tb_size heading) ++ [heading]]> size_groups.

Definition level_step (st : gmap Qc text * nat) (size : Qc) : gmap Qc text * nat :=
  let '(level_map, level_counter) := st in
  if level_counter <=? 6
  then (<[size := level_name level_counter]> level_map, S level_counter)
  else st.

(** The keys of [size_groups] are distinct, so the sorted list does not
    depend on the order in which they are enumerated. *)
Definition determine_heading_levels (headings : list TextBlock) (font_stats : FontStats)
  : list TextBlock :=
  match headings with
  | [] => []
  | _ =>
      let size_groups := foldl group_step ∅ headings in
      let sorted_sizes := sort_desc (elements (dom size_groups)) in
      let level_map := (foldl level_step (∅, 1%nat) sorted_sizes).1 in
      map (λ heading,
             set_level (default (py "H6") (level_map !! tb_size heading)) heading)
          headings
  end.

(** ** extract_title_from_pdf *)

(** Exceptions raised inside the [try] block of [extract_outline]. *)
Inductive exn := IndexError | KeyError.

Inductive result (A : Type) : Type :=
  | Ok (a : A)
  | Raise (e : exn).
Arguments Ok {A} a.
Arguments Raise {A} e.

Definition bind {A B} (r : result A) (k : A -> result B) : result B :=
  match r with
  | Ok a => k a
  | Raise e => Raise e
  end.

Notation "'let!' x ':=' r 'in' k" := (bind r (λ x, k))
  (at level 10, x name, r at level 100, k at level 200).

Fixpoint traverse {A B} (f : A -> result B) (l : list A) : result (list B) :=
  match l with
  | [] => Ok []
  | x :: l' =>
      let! y := f x in
      let! ys := traverse f l' in
      Ok (y :: ys)
  end.

Record TitleCandidate := {
  tc_text : text;
  tc_size : Qc;
  tc_y : Qc;
  tc_bold : bool
}.

Definition title_candidates (first_page : Page) : list TitleCandidate :=
  flat_map (λ '(ln, sp),
      let t := clean_text (span_text sp) in
      if negb (bool_decide (t = [])) && (2 <=? length (split t)) && (10 <=? length t)
      then {| tc_text := t; tc_size := span_size sp; tc_y := bbox_y0 ln;
              tc_bold := is_substring (py "Bold") (default [] (span_font sp)) |} :: []
      else [])
    (page_entries first_page).

(** [candidates.sort(key=lambda x: (-x["size"], x["y"]))]. *)
Definition cand_le (a b : TitleCandidate) : bool :=
  key_le (- tc_size a, tc_y a) (- tc_size b, tc_y b).

Definition sort_candidates (candidates : list TitleCandidate) : list TitleCandidate :=
  sort_by cand_le candidates.

(** The inner loop over [filtered_candidates]: is [candidate] a duplicate
    of one already kept? *)
Definition is_duplicate (filtered_candidates : list TitleCandidate)
    (candidate : TitleCandidate) : bool :=
  existsb (λ existing,
      bool_decide (Qcabs (tc_y candidate - tc_y existing) < of_Z 10)
      && (is_substring (lower (tc_text candidate)) (lower (tc_text existing))
          || is_substring (lower (tc_text existing)) (lower (tc_text candidate))))
    filtered_candidates.

Definition filter_step (filtered_candidates : list TitleCandidate)
    (candidate : TitleCandidate) : list TitleCandidate :=
  if is_duplicate filtered_candidates candidate then filtered_candidates
  else filtered_candidates ++ [candidate].

Definition untitled : text := py "Untitled Document".

(** Strategy 1: the value returned from the metadata, if any. *)
Definition metadata_strategy (d : Document) : option text :=
  let metadata_title := strip (default [] (doc_metadata_title d)) in
  if negb (bool_decide (metadata_title = [])) && (3 <? length metadata_title)
  then Some (clean_text metadata_title)
  else None.

(** Strategy 2, on the first page. *)
Definition geometry_strategy (first_page : Page) : text :=
  match title_candidates first_page with
  | [] => untitled
  | candidates =>
      let filtered_candidates := foldl filter_step [] (sort_candidates candidates) in
      match filtered_candidates with
      | c :: _ => tc_text c
      | [] => untitled
      end
  end.

(** [doc[0]] raises [IndexError] on a document without pages. *)
Definition extract_title_from_pdf (d : Document) : result text :=
  match metadata_strategy d with
  | Some t => Ok t
  | None =>
      match doc_pages d with
      | [] => Raise IndexError
      | first_page :: _ => Ok (geometry_strategy first_page)
      end
  end.

(** ** extract_outline *)

Record OutlineEntry := {
  oe_level : text;
  oe_text : text;
  oe_page : nat
}.

Record DocumentResult := {
  title : text;
  outline : list OutlineEntry
}.

Definition text_blocks_of_page (page_num : nat) (p : Page) : list TextBlock :=
  flat_map (λ '(ln, sp),
      let t := clean_text (span_text sp) in
      if bool_decide (t = []) || (length t <? 3) then []
      else
        let font_name := default [] (span_font sp) in
        {| tb_text := t; tb_page := page_num;
             tb_x := bbox_x0 ln; tb_y := bbox_y0 ln;
             tb_size := round1 (span_size sp);
             tb_font := font_name;
             tb_bold := is_substring (py "Bold") font_name
                        || is_substring (py "bold") (lower font_name);
             tb_italic := is_substring (py "Italic") font_name
                          || is_substring (py "italic") (lower font_name);
             tb_flags := default 0%Z (span_flags sp);
             tb_level := None |} :: [])
    (page_entries p).

Definition text_blocks (d : Document) : list TextBlock :=
  flat_map (λ '(page_num, p), text_blocks_of_page page_num p) (enumerate_pages d).

(** [headings_with_levels.sort(key=lambda x: (x["page"], x["y"]))]. *)
Definition sort_headings (l : list TextBlock) : list TextBlock :=
  sort_by (λ a b, (tb_page a <? tb_page b)
                  || ((tb_page a =? tb_page b) && bool_decide (tb_y a ≤ tb_y b))) l.

(** One entry of the outline; reading the key "level" raises [KeyError]
    when it is absent. *)
Definition to_entry (h : TextBlock) : result OutlineEntry :=
  match tb_level h with
  | Some lv => Ok {| oe_level := lv; oe_text := tb_text h; oe_page := tb_page h |}
  | None => Raise KeyError
  end.

Definition error_result : DocumentResult :=
  {| title := py "Error Processing Document"; outline := [] |}.

(** The body of the [try] block, given the opened document. *)
Definition extract_outline_body (d : Document) : result DocumentResult :=
  let font_stats := extract_font_statistics d in
  let avg := avg_font_size font_stats in
  let headings :=
    filter (λ b, is_likely_heading (tb_text b) (tb_size b) (tb_bold b) avg font_stats = true)
           (text_blocks d) in
  let headings_with_levels := sort_headings (determine_heading_levels headings font_stats) in
  let! t := extract_title_from_pdf d in
  let! o := traverse to_entry headings_with_levels in
  Ok {| title := t; outline := o |}.

Definition extract_outline (d : Document) : DocumentResult :=
  match extract_outline_body d with
  | Ok r => r
  | Raise _ => error_result
  end.

(** ** Documents used in the examples *)

Definition mk_span (t : string) (size : Qc) : Span :=
  {| span_text := py t; span_size := size; span_font := None; span_flags := None |}.

Definition mk_line (y : Qc) (sps : list Span) : Line :=
  {| line_bbox := (of_Z 72, y, of_Z 500, y + of_Z 20); line_spans := sps |}.

Definition mk_block (lns : list Line) : Block := {| block_lines := Some lns |}.

Definition mk_doc (pgs : list Page) : Document :=
  {| doc_metadata_title := None; doc_pages := pgs |}.

(** Page 1 holds the single span INTRODUCTION of size 24 at y = 50; the
    three body lines of page 2, of size 8, bring the average to 12. *)
Definition introduction_doc : Document :=
  mk_doc
    ((mk_block (mk_line (of_Z 50) (mk_span "INTRODUCTION" (of_Z 24) :: []) :: []) :: [])
     :: (mk_block
           (mk_line (of_Z 50) (mk_span "this is the first line of the body" (of_Z 8) :: [])
            :: mk_line (of_Z 70) (mk_span "and this is the second one of it" (of_Z 8) :: [])
            :: mk_line (of_Z 90) (mk_span "the third line ends the page." (of_Z 8) :: [])
            :: []) :: [])
     :: []).

(** The text block built from the span of page 1. *)
Definition introduction_block : TextBlock :=
  {| tb_text := py "INTRODUCTION"; tb_page := 1; tb_x := of_Z 72; tb_y := of_Z 50;
     tb_size := of_Z 24; tb_font := []; tb_bold := false; tb_italic := false;
     tb_flags := 0%Z; tb_level := None |}.

Definition no_stats : FontStats :=
  {| avg_font_size := of_Z 12; most_common_font := (of_Z 12, []); all_sizes := [] |}.

(** A document without pages. *)
Definition empty_doc : Document := mk_doc [].

(** A span of three artifact characters, which normalisation deletes, next
    to an ordinary one. *)
Definition artifact_doc : Document :=
  mk_doc ((mk_block (mk_line (of_Z 50) (mk_span "@@@" (of_Z 20) :: [])
                     :: mk_line (of_Z 80) (mk_span "hello" (of_Z 10) :: [])
                     :: []) :: []) :: []).

(** A span whose size, 10.04, is not a multiple of one tenth. *)
Definition fractional_doc : Document :=
  mk_doc ((mk_block (mk_line (of_Z 50) (mk_span "hello" (dec 10.04) :: []) :: []) :: [])
          :: []).

(** ** The statistics in closed form *)

Definition mean (l : list Qc) : Qc := sum_Qc l / of_nat (length l).

(** The sizes that enter the average: of every span whose text, trimmed of
    leading and trailing whitespace, has more than 2 characters, the size
    rounded to one decimal. *)
Definition trimmed_qualifies (sp : Span) : Prop :=
  (2 < length (strip (span_text sp)))%nat.

Definition averaged_sizes (d : Document) : list Qc :=
  map (λ sp, round1 (span_size sp)) (filter trimmed_qualifies (doc_spans d)).

(** The average as the specification words it: the mean of the raw size
    of every span whose normalised text has more than 2 characters, and 12
    when there is none. *)
Definition spec_qualifies (sp : Span) : Prop :=
  (2 < length (clean_text (span_text sp)))%nat.

Definition spec_avg_font_size (d : Document) : Qc :=
  match map span_size (filter spec_qualifies (doc_spans d)) with
  | [] => of_Z 12
  | sizes => mean sizes
  end.

(** ** Title resolution without the suppression of near-duplicates *)

Definition first_sorted_title (first_page : Page) : text :=
  match sort_candidates (title_candidates first_page) with
  | [] => untitled
  | c :: _ => tc_text c
  end.

Definition extract_title_without_suppression (d : Document) : result text :=
  match metadata_strategy d with
  | Some t => Ok t
  | None =>
      match doc_pages d with
      | [] => Raise IndexError
      | first_page :: _ => Ok (first_sorted_title first_page)
      end
  end.

(** The result for a document in which nothing is found. *)
Definition untitled_result : DocumentResult := {| title := untitled; outline := [] |}.

(** A page with one blank line. *)
Definition blank_doc : Document :=
  mk_doc ((mk_block (mk_line (of_Z 50) (mk_span "  " (of_Z 11) :: []) :: []) :: []) :: []).

(** Two candidate titles of equal size on page 1. *)
Definition two_titles_doc : Document :=
  mk_doc ((mk_block (mk_line (of_Z 90) (mk_span "A Second Heading" (of_Z 18) :: [])
                     :: mk_line (of_Z 40) (mk_span "The First Heading" (of_Z 18) :: [])
                     :: []) :: []) :: []).

(** ** Ranks and ordinals of levels *)

(** The rank of a size among the candidates: one more than the number of
    distinct candidate sizes strictly above it, so that the largest size
    has rank 1, the second largest rank 2, and so on. *)
Definition size_rank (headings : list TextBlock) (s : Qc) : nat :=
  S (length (filter (λ x, s < x) (remove_dups (tb_size <$> headings)))).

(** The ordinal of a level name: the number after its first letter. *)
Definition level_ordinal (lv : text) : nat :=
  match lv with
  | [] => 0
  | _ :: ds =>
      match NilEmpty.uint_of_string (string_of_list_ascii ds) with
      | Some u => Nat.of_uint u
      | None => 0
      end
  end.

(** The six level names. *)
Definition level_names : list text := level_name <$> [1; 2; 3; 4; 5; 6]%nat.

(** A span of at most 2 characters after normalisation. *)
Definition short_text (sp : Span) : Prop :=
  (length (clean_text (span_text sp)) <= 2)%nat.

(** Heading candidates that differ in size only. *)
Definition sized_block (size : Z) : TextBlock :=
  {| tb_text := py "Heading"; tb_page := 1; tb_x := of_Z 72; tb_y := of_Z 50;
     tb_size := of_Z size; tb_font := []; tb_bold := true; tb_italic := false;
     tb_flags := 0%Z; tb_level := None |}.

Definition seven_sizes : list TextBlock :=
  sized_block <$> [20; 18; 16; 14; 12; 10; 8]%Z.

Definition two_sizes : list TextBlock := sized_block <$> [18; 20]%Z.

(** Documents that carry a metadata title. *)
Definition titled_doc (pgs : list Page) : Document :=
  {| doc_metadata_title := Some (py "  Annual Report  "); doc_pages := pgs |}.

(** ** The earlier variant, app/process_pdfs.py

    [extract_outline] of [src/app/process_pdfs.py], from the opened
    document on.  It has no handler: an exception would reach the caller. *)

Record AppBlock := {
  ab_text : text;
  ab_size : Qc;
  ab_page : nat
}.

(** The body of the innermost loop: [font_stats] counts the spans of each
    size, [blocks_per_page] collects them. *)
Definition app_step (page_num : nat) (st : gmap Qc nat * list AppBlock) (sp : Span)
  : gmap Qc nat * list AppBlock :=
  let '(font_stats, blocks_per_page) := st in
  let t := strip (span_text sp) in
  let size := round1 (span_size sp) in
  if bool_decide (t = []) || (length t <? 3) then st
  else (<[size := (default 0 (font_stats !! size) + 1)%nat]> font_stats,
        blocks_per_page ++ [ {| ab_text := t; ab_size := size; ab_page := page_num |} ]%list).

Definition app_scan (d : Document) : gmap Qc nat * list AppBlock :=
  foldl (λ st '(page_num, p), foldl (app_step page_num) st (map snd (page_entries p)))
        (∅, []) (enumerate_pages d).

(** The dictionary comprehension over [enumerate(font_sizes[:4])]. *)
Definition app_level_map (font_sizes : list Qc) : gmap Qc text :=
  foldl (λ m '(i, size), <[size := level_name (S i)]> m) ∅
        (imap (λ i size, (i, size)) (take 4 font_sizes)).

(** [next((b["text"] for b in blocks_per_page if ...), "")]: the index
    [font_sizes[0]] is evaluated for each block of page 1, and raises
    [IndexError] on an empty list. *)
Fixpoint app_find_title (font_sizes : list Qc) (blocks : list AppBlock) : result text :=
  match blocks with
  | [] => Ok []
  | b :: bs =>
      if ab_page b =? 1 then
        match font_sizes with
        | [] => Raise IndexError
        | s0 :: _ =>
            if bool_decide (ab_size b = s0) then Ok (ab_text b)
            else app_find_title font_sizes bs
        end
      else app_find_title font_sizes bs
  end.

(** The last loop: a block is kept when [level_map.get] gives a non-empty
    string. *)
Definition app_outline (level_map : gmap Qc text) (blocks : list AppBlock)
  : list OutlineEntry :=
  flat_map (λ b,
      match level_map !! ab_size b with
      | Some (c :: lv) =>
          {| oe_level := c :: lv; oe_text := ab_text b; oe_page := ab_page b |} :: []
      | _ => []
      end)
    blocks.

Definition app_extract_outline (d : Document) : result DocumentResult :=
  let '(font_stats, blocks_per_page) := app_scan d in
  let font_sizes := sort_desc (elements (dom font_stats)) in
  let level_map := app_level_map font_sizes in
  let! t := app_find_title font_sizes blocks_per_page in
  Ok {| title := strip t; outline := app_outline level_map blocks_per_page |}.

(** ** Closed forms for the earlier variant *)

(** The rank of a size among a list of sizes: one more than the number of
    distinct sizes strictly above it. *)
Definition rank_among (sizes : list Qc) (s : Qc) : nat :=
  S (length (filter (λ x, s < x) (remove_dups sizes))).

(** The blocks collected from the spans of one page. *)
Definition app_blocks_of (page_num : nat) (spans : list Span) : list AppBlock :=
  flat_map (λ sp,
      let t := strip (span_text sp) in
      if bool_decide (t = []) || (length t <? 3) then []
      else {| ab_text := t; ab_size := round1 (span_size sp); ab_page := page_num |} :: [])
    spans.

Definition app_blocks (d : Document) : list AppBlock :=
  flat_map (λ '(page_num, p), app_blocks_of page_num (map snd (page_entries p)))
           (enumerate_pages d).

(** A block of page 1 that no block of the document exceeds in size. *)
Definition largest_on_page1 (blocks : list AppBlock) (b : AppBlock) : Prop :=
  ab_page b = 1%nat /\ Forall (λ b', ab_size b' ≤ ab_size b) blocks.

(** A document whose largest font occurs on page 2 only. *)
Definition late_title_doc : Document :=
  mk_doc
    ((mk_block (mk_line (of_Z 50) (mk_span "a small opening line" (of_Z 10) :: []) :: []) :: [])
     :: (mk_block (mk_line (of_Z 50) (mk_span "The Real Title" (of_Z 30) :: []) :: []) :: [])
     :: []).

(** ** The tests inside the loops, by name *)

(** The test of the innermost loop of the title resolver: on the same
    line, and one text inside the other. *)
Definition near_duplicate (candidate existing : TitleCandidate) : bool :=
  bool_decide (Qcabs (tc_y candidate - tc_y existing) < of_Z 10)
  && (is_substring (lower (tc_text candidate)) (lower (tc_text existing))
      || is_substring (lower (tc_text existing)) (lower (tc_text candidate))).

(** The sort key [(page, y)] of the headings. *)
Definition heading_le (a b : TextBlock) : bool :=
  (tb_page a <? tb_page b)
  || ((tb_page a =? tb_page b) && bool_decide (tb_y a ≤ tb_y b)).

(** The entry formatted from a heading that has its level. *)
Definition entry_of (h : TextBlock) : OutlineEntry :=
  {| oe_level := default [] (tb_level h); oe_text := tb_text h; oe_page := tb_page h |}.

(** The headings of a document: the accepted text blocks. *)
Definition accepted_blocks (d : Document) : list TextBlock :=
  let font_stats := extract_font_statistics d in
  filter (λ b, is_likely_heading (tb_text b) (tb_size b) (tb_bold b)
                 (avg_font_size font_stats) font_stats = true)
         (text_blocks d).

(** ** The weight of a font *)

(** The key under which a span is counted. *)
Definition span_key (sp : Span) : Qc * text :=
  (round1 (span_size sp), default [] (span_font sp)).

(** The number of characters set in a font: the trimmed lengths of the
    qualifying spans of that size and font name, added up. *)
Definition weight_in (spans : list Span) (k : Qc * text) : nat :=
  sum_list (map (λ sp, length (strip (span_text sp)))
                (filter (λ sp, trimmed_qualifies sp /\ span_key sp = k) spans)).

Definition font_weight (d : Document) (k : Qc * text) : nat := weight_in (doc_spans d) k.

(** The count that a [Counter] holds for a key. *)
Definition counter_count {K} `{EqDecision K} (k : K) (c : list (K * nat)) : nat :=
  sum_list (map snd (filter (λ e, e.1 = k) c)).

(** Two candidates on one line, one text inside the other, and a third
    further down. *)
Definition repeated_title : list TitleCandidate :=
  {| tc_text := py "Annual Report 2024"; tc_size := of_Z 20; tc_y := of_Z 50; tc_bold := true |}
  :: {| tc_text := py "annual report"; tc_size := of_Z 20; tc_y := of_Z 52; tc_bold := false |}
  :: {| tc_text := py "Prepared by the board"; tc_size := of_Z 14; tc_y := of_Z 90; tc_bold := false |}
  :: [].

(** One bold span whose text starts with an artifact character: cleaning
    deletes the artifact and leaves the blank that followed it. *)
Definition artifact_bold_doc : Document :=
  mk_doc
    ((mk_block
        (mk_line (of_Z 50)
           ({| span_text := py "@ ab"; span_size := of_Z 30;
               span_font := Some (py "Helvetica-Bold"); span_flags := None |} :: [])
         :: []) :: []) :: []).

(** * Properties *)

(** ** The string functions and patterns on examples *)

Example dec_ex1 : dec 1.1 = Q2Qc (11 # 10) /\ dec 0.3 = Q2Qc (3 # 10).
Proof. split; apply Qc_is_canon; reflexivity. Qed.
Example round1_ex1 :
  round1 (dec 10.04) = of_Z 10 /\ round1 (dec 11.96) = of_Z 12
  /\ round1 (dec 0.25) = dec 0.2 /\ round1 (dec 0.35) = dec 0.4
  /\ round1 (dec (-0.25)) = dec (-0.2).
Proof. repeat split; apply Qc_is_canon; vm_compute; reflexivity. Qed.
Example clean_text_ex1 : clean_text (py "  Hello   wor@ld  ") = py "Hello world".
Proof. vm_compute. reflexivity. Qed.
Example split_ex1 : split (py " a  bc d ") = [py "a"; py "bc"; py "d"].
Proof. vm_compute. reflexivity. Qed.
Example pat_ex1 : map (λ r, re_match r (py "INTRODUCTION")) heading_patterns = [false;true;false;false;false].
Proof. vm_compute. reflexivity. Qed.
Example pat_ex2 : map (λ r, re_match r (py "1.2 Scope")) heading_patterns = [true;false;false;false;false].
Proof. vm_compute. reflexivity. Qed.
Example pat_ex3 : map (λ r, re_match r (py "Chapter  12 x")) heading_patterns = [false;false;true;false;false].
Proof. vm_compute. reflexivity. Qed.
Example pat_ex4 : map (λ r, re_match r (py "IV. Results")) heading_patterns = [false;false;false;true;false].
Proof. vm_compute. reflexivity. Qed.
Example pat_ex5 : map (λ r, re_match r (py "Abstract :")) heading_patterns = [false;false;false;false;true].
Proof. vm_compute. reflexivity. Qed.
Example pat_ex6 : map (λ r, re_match r (py "AB")) heading_patterns = [false;false;false;false;false].
Proof. vm_compute. reflexivity. Qed.

(** ** Sorting *)

Section SortingFacts.
Context {A : Type} (le : A -> A -> bool).
Hypothesis le_total : forall a b, le a b = true \/ le b a = true.
Hypothesis le_trans : forall a b c, le a b = true -> le b c = true -> le a c = true.

Lemma insert_sorted_perm x l : insert_sorted le x l ≡ₚ x :: l.
Proof.
  induction l as [|y l IH]; simpl; [done|].
  destruct (le x y); [done|].
  rewrite IH. apply Permutation_swap.
Qed.

Lemma sort_by_perm l : sort_by le l ≡ₚ l.
Proof.
  induction l as [|x l IH]; simpl; [done|].
  rewrite insert_sorted_perm. by rewrite IH.
Qed.

Lemma insert_sorted_sorted x l :
  StronglySorted (λ a b, le a b = true) l ->
  StronglySorted (λ a b, le a b = true) (insert_sorted le x l).
Proof.
  induction 1 as [|y l Hs IH Hall]; simpl.
  - repeat constructor.
  - destruct (le x y) eqn:E.
    + constructor; [by constructor|].
      constructor; [done|].
      eapply Forall_impl; [exact Hall|]. intros z Hz. by eapply le_trans.
    + constructor; [done|].
      rewrite insert_sorted_perm. constructor; [|done].
      destruct (le_total x y); congruence.
Qed.

Lemma sort_by_sorted l : StronglySorted (λ a b, le a b = true) (sort_by le l).
Proof.
  induction l as [|x l IH]; simpl; [constructor|].
  by apply insert_sorted_sorted.
Qed.

(** The head of the sorted list is an element of the list that no other
    element precedes. *)
Lemma sort_by_head c l' l :
  sort_by le l = c :: l' -> c ∈ l /\ forall x, x ∈ l -> le c x = true.
Proof.
  intros E. pose proof (sort_by_sorted l) as Hs.
  pose proof (sort_by_perm l) as Hp. rewrite E in Hs, Hp.
  split; [rewrite <- Hp; left|].
  intros x Hx. rewrite <- Hp in Hx.
  apply StronglySorted_inv in Hs as [_ Hall].
  apply elem_of_cons in Hx as [->|Hx].
  - destruct (le_total c c); done.
  - by eapply Forall_forall in Hall.
Qed.

Lemma sort_by_nil l : sort_by le l = [] -> l = [].
Proof.
  intros E. pose proof (sort_by_perm l) as Hp. rewrite E in Hp.
  symmetry in Hp. by apply Permutation_nil_r in Hp.
Qed.
End SortingFacts.

(** ** Level resolution *)

Lemma Qclt_asym (a b : Qc) : a < b -> b < a -> False.
Proof.
  intros H1 H2. apply (Qclt_not_eq a a); [|done]. by eapply Qclt_trans.
Qed.

Lemma desc_le_total a b : desc_le a b = true \/ desc_le b a = true.
Proof.
  unfold desc_le. rewrite !bool_decide_eq_true.
  destruct (total Qcle a b); auto.
Qed.

Lemma desc_le_trans a b c :
  desc_le a b = true -> desc_le b c = true -> desc_le a c = true.
Proof.
  unfold desc_le. rewrite !bool_decide_eq_true. intros. by etrans.
Qed.

Lemma sort_desc_perm l : sort_desc l ≡ₚ l.
Proof. apply sort_by_perm. Qed.

(** Without duplicates the descending order is strict. *)
Lemma desc_sorted_strict (k : list Qc) :
  NoDup k -> StronglySorted (λ a b, desc_le a b = true) k ->
  StronglySorted (λ a b, b < a) k.
Proof.
  intros Hnd Hs. induction Hs as [|x k Hs IH Hall]; [constructor|].
  apply NoDup_cons in Hnd as [Hx Hnd].
  constructor; [by apply IH|].
  apply Forall_forall. intros y Hy.
  eapply Forall_forall in Hall; [|exact Hy].
  unfold desc_le in Hall. apply bool_decide_eq_true in Hall.
  apply Qcle_lt_or_eq in Hall as [?| ->]; [done|]. by destruct Hx.
Qed.

Lemma sort_desc_strict l :
  NoDup l -> StronglySorted (λ a b, b < a) (sort_desc l).
Proof.
  intros Hnd. apply desc_sorted_strict.
  - by rewrite sort_desc_perm.
  - apply (sort_by_sorted desc_le desc_le_total desc_le_trans).
Qed.

(** The sorted list of distinct keys does not depend on the order in
    which the dictionary enumerates them. *)
Lemma sort_desc_unique l1 l2 :
  NoDup l1 -> l1 ≡ₚ l2 -> sort_desc l1 = sort_desc l2.
Proof.
  intros Hnd Hp.
  assert (NoDup l2) as Hnd2 by (by rewrite <- Hp).
  apply (StronglySorted_unique_strong (λ a b : Qc, b < a)).
  - intros x1 x2 _ _ H1 H2. by destruct (Qclt_asym _ _ H1 H2).
  - by apply sort_desc_strict.
  - by apply sort_desc_strict.
  - by rewrite !sort_desc_perm.
Qed.

Lemma filter_none {A} (P : A -> Prop) `{!∀ x, Decision (P x)} (l : list A) :
  Forall (λ x, ¬ P x) l -> filter P l = [].
Proof.
  induction 1 as [|x l Hx _ IH]; [done|]. by rewrite filter_cons_False.
Qed.

(** In a strictly descending list the index of an element is the number
    of elements above it. *)
Lemma strict_desc_index (l : list Qc) i s :
  StronglySorted (λ a b, b < a) l -> l !! i = Some s ->
  length (filter (λ x, s < x) l) = i.
Proof.
  intros Hs. revert i. induction Hs as [|x l Hs IH Hall]; intros i Hi; [done|].
  destruct i as [|i]; simpl in Hi.
  - injection Hi as ->. rewrite filter_cons_False by apply (irreflexivity Qclt).
    apply length_zero_iff_nil, filter_none.
    eapply Forall_impl; [exact Hall|]. intros y Hy Hlt.
    by eapply Qclt_asym.
  - rewrite filter_cons_True; [simpl; f_equal; by apply IH|].
    eapply Forall_forall in Hall; [exact Hall|]. by eapply list_elem_of_lookup_2.
Qed.

Lemma filter_length_perm {A} (P : A -> Prop) `{!∀ x, Decision (P x)} (l1 l2 : list A) :
  l1 ≡ₚ l2 -> length (filter P l1) = length (filter P l2).
Proof. intros Hp. by rewrite Hp. Qed.

Lemma dom_group_fold headings (m : gmap Qc (list TextBlock)) :
  dom (foldl group_step m headings) = dom m ∪ list_to_set (tb_size <$> headings).
Proof.
  revert m. induction headings as [|h hs IH]; intros m; simpl.
  - by rewrite (right_id_L ∅ (∪)).
  - rewrite IH. unfold group_step. rewrite dom_insert_L.
    by rewrite (comm_L (∪) {[tb_size h]} (dom m)), (assoc_L (∪)).
Qed.

Lemma level_step_absent l (m : gmap Qc text) c s :
  s ∉ l -> (foldl level_step (m, c) l).1 !! s = m !! s.
Proof.
  revert m c. induction l as [|x l IH]; intros m c Hs; [done|].
  apply not_elem_of_cons in Hs as [Hne Hs]. simpl.
  destruct (c <=? 6); [|by apply IH].
  rewrite IH by done. by apply lookup_insert_ne.
Qed.

(** The loop over [sorted_sizes]: the size at index [i] receives the name
    of [level_counter + i] as long as this does not exceed 6, and no entry
    afterwards. *)
Lemma level_step_lookup l (m : gmap Qc text) c s i :
  NoDup l -> l !! i = Some s ->
  (foldl level_step (m, c) l).1 !! s
  = if (c + i <=? 6)%nat then Some (level_name (c + i)) else m !! s.
Proof.
  revert m c i. induction l as [|x l IH]; intros m c i Hnd Hi; [done|].
  apply NoDup_cons in Hnd as [Hx Hnd].
  destruct i as [|i]; simpl in Hi.
  - injection Hi as ->. simpl. rewrite Nat.add_0_r.
    destruct (c <=? 6); rewrite level_step_absent by done; [|done].
    apply lookup_insert_eq.
  - assert (x ≠ s) as Hne by (intros ->; apply Hx; by eapply list_elem_of_lookup_2).
    simpl. destruct (c <=? 6) eqn:E.
    + rewrite (IH _ _ i) by done. rewrite <- Nat.add_succ_comm.
      destruct (S c + i <=? 6)%nat; [done|]. by apply lookup_insert_ne.
    + rewrite (IH _ _ i) by done.
      apply Nat.leb_gt in E.
      rewrite (proj2 (Nat.leb_gt (c + i) 6)) by lia.
      by rewrite (proj2 (Nat.leb_gt (c + S i) 6)) by lia.
Qed.

(** What [determine_heading_levels] computes, in closed form. *)
Lemma levels_by_rank headings font_stats :
  determine_heading_levels headings font_stats
  = map (λ h, set_level (level_name (size_rank headings (tb_size h) `min` 6)) h) headings.
Proof.
  unfold determine_heading_levels.
  destruct headings as [|h0 hs]; [done|].
  set (headings := h0 :: hs).
  set (keys := elements (dom (foldl group_step ∅ headings))).
  assert (NoDup keys) as Hnd by apply NoDup_elements.
  assert (keys ≡ₚ remove_dups (tb_size <$> headings)) as Hp.
  { apply NoDup_Permutation; [done|apply NoDup_remove_dups|].
    intros x. unfold keys. rewrite elem_of_elements, dom_group_fold, elem_of_remove_dups.
    by rewrite dom_empty_L, (left_id_L ∅ (∪)), elem_of_list_to_set. }
  apply map_ext_in. intros h Hh. f_equal.
  assert (tb_size h ∈ sort_desc keys) as Hin.
  { rewrite sort_desc_perm, Hp, elem_of_remove_dups.
    apply list_elem_of_fmap. exists h. split; [done|]. by apply list_elem_of_In. }
  apply list_elem_of_lookup in Hin as [i Hi].
  rewrite (level_step_lookup _ _ _ _ i); [|by rewrite sort_desc_perm|done].
  assert (size_rank headings (tb_size h) = S i) as ->.
  { unfold size_rank. f_equal.
    rewrite <- (filter_length_perm _ _ _ Hp), <- (filter_length_perm _ _ _ (sort_desc_perm keys)).
    apply strict_desc_index; [by apply sort_desc_strict|done]. }
  change (1 + i)%nat with (S i).
  destruct (S i <=? 6)%nat eqn:E.
  - apply Nat.leb_le in E. simpl. by rewrite Nat.min_l by lia.
  - apply Nat.leb_gt in E. rewrite lookup_empty. simpl. by rewrite Nat.min_r by lia.
Qed.

Lemma level_ordinal_name n : level_ordinal (level_name n) = n.
Proof.
  unfold level_name, str_of_nat, py. simpl.
  rewrite string_of_list_ascii_of_string, NilEmpty.usu.
  apply DecimalNat.Unsigned.of_to.
Qed.

Lemma size_rank_mono headings (a b : Qc) :
  b ≤ a -> (size_rank headings a <= size_rank headings b)%nat.
Proof.
  intros Hab. unfold size_rank. apply le_n_S.
  induction (remove_dups (tb_size <$> headings)) as [|x l IH]; [done|].
  destruct (decide (a < x)) as [Hx|Hx].
  - rewrite (filter_cons_True (λ x, a < x)) by done.
    rewrite (filter_cons_True (λ x, b < x)) by (by eapply Qcle_lt_trans).
    simpl. lia.
  - rewrite (filter_cons_False (λ x, a < x)) by done.
    destruct (decide (b < x)).
    + rewrite (filter_cons_True (λ x, b < x)) by done. simpl. lia.
    + by rewrite (filter_cons_False (λ x, b < x)) by done.
Qed.

Lemma size_rank_pos headings s : (1 <= size_rank headings s)%nat.
Proof. unfold size_rank. lia. Qed.

Lemma level_name_in n : (1 <= n <= 6)%nat -> level_name n ∈ level_names.
Proof.
  intros Hn. apply list_elem_of_fmap. exists n. split; [done|].
  assert (n = 1 \/ n = 2 \/ n = 3 \/ n = 4 \/ n = 5 \/ n = 6)%nat as H by lia.
  rewrite !elem_of_cons. tauto.
Qed.

Lemma elem_of_levels headings font_stats A :
  A ∈ determine_heading_levels headings font_stats ->
  exists a, a ∈ headings /\ tb_size A = tb_size a /\
    A = set_level (level_name (size_rank headings (tb_size a) `min` 6)) a.
Proof.
  rewrite levels_by_rank. intros HA.
  apply (list_elem_of_fmap_1 _ headings A) in HA as [a [-> Ha]]. eauto.
Qed.

(** C2: the Level Resolver keeps every candidate, in order, and gives it
    the name of the rank of its size among the distinct candidate sizes in
    descending order, saturated at 6: ranks 1 to 6 receive H1 to H6, every
    rank above 6 receives H6, and at most 6 distinct levels occur. *)
Theorem C2_levels_by_rank_saturating headings font_stats :
  determine_heading_levels headings font_stats
  = map (λ h, set_level (level_name (size_rank headings (tb_size h) `min` 6)) h) headings
  /\ (forall h r, h ∈ headings -> size_rank headings (tb_size h) = r -> (r <= 6)%nat ->
        set_level (level_name r) h ∈ determine_heading_levels headings font_stats)
  /\ (forall h, h ∈ headings -> (6 < size_rank headings (tb_size h))%nat ->
        set_level (py "H6") h ∈ determine_heading_levels headings font_stats)
  /\ Forall (λ h, exists lv, tb_level h = Some lv /\ lv ∈ level_names)
       (determine_heading_levels headings font_stats)
  /\ (length (remove_dups (tb_level <$> determine_heading_levels headings font_stats)) <= 6)%nat.
Proof.
  pose proof (levels_by_rank headings font_stats) as E.
  assert (Forall (λ h, exists lv, tb_level h = Some lv /\ lv ∈ level_names)
            (determine_heading_levels headings font_stats)) as Hall.
  { apply Forall_forall. intros A HA.
    apply elem_of_levels in HA as (a & _ & _ & ->).
    eexists. split; [done|]. apply level_name_in.
    pose proof (size_rank_pos headings (tb_size a)). lia. }
  split; [done|]. repeat split.
  - intros h r Hh Hr Hle. rewrite E.
    apply list_elem_of_fmap. exists h. split; [|done].
    by rewrite Hr, Nat.min_l.
  - intros h Hh Hlt. rewrite E.
    apply list_elem_of_fmap. exists h. split; [|done].
    by rewrite Nat.min_r by lia.
  - done.
  - change 6%nat with (length (Some <$> level_names)).
    apply submseteq_length, NoDup_submseteq; [apply NoDup_remove_dups|].
    intros lv Hlv. apply elem_of_remove_dups, list_elem_of_fmap in Hlv as (A & -> & HA).
    eapply Forall_forall in Hall as (lv & -> & Hlv); [|done].
    by apply list_elem_of_fmap_2.
Qed.

(** C3: the level is monotonic in the font size. A candidate with a
    larger size has a level ordinal that is at most that of a candidate
    with a smaller size, and candidates of equal size have the same level. *)
Theorem C3_levels_monotone headings font_stats A B :
  A ∈ determine_heading_levels headings font_stats ->
  B ∈ determine_heading_levels headings font_stats ->
  (tb_size B < tb_size A ->
     exists la lb, tb_level A = Some la /\ tb_level B = Some lb
                   /\ (level_ordinal la <= level_ordinal lb)%nat)
  /\ (tb_size A = tb_size B -> tb_level A = tb_level B).
Proof.
  intros HA HB.
  apply elem_of_levels in HA as (a & _ & Ea & ->).
  apply elem_of_levels in HB as (b & _ & Eb & ->).
  cbn [tb_level tb_size set_level]. split.
  - intros Hlt. do 2 eexists. split; [done|]. split; [done|].
    rewrite !level_ordinal_name.
    apply Nat.min_le_compat_r, size_rank_mono. by apply Qclt_le_weak.
  - by intros ->.
Qed.

(** ** Normalisation of text *)

Section DropWhile.
Context {A : Type} (p : A -> bool).

Lemma drop_while_length l : (length (drop_while p l) <= length l)%nat.
Proof.
  induction l as [|x l IH]; simpl; [done|].
  destruct (p x); simpl; lia.
Qed.

Lemma drop_while_head l :
  match drop_while p l with
  | [] => True
  | x :: _ => p x = false
  end.
Proof.
  induction l as [|x l IH]; simpl; [done|].
  by destruct (p x) eqn:E.
Qed.

Lemma drop_while_fixed x l : p x = false -> drop_while p (x :: l) = x :: l.
Proof. intros E. simpl. by rewrite E. Qed.

Lemma drop_while_idem l : drop_while p (drop_while p l) = drop_while p l.
Proof.
  pose proof (drop_while_head l) as H.
  destruct (drop_while p l) as [|x k]; [done|]. by apply drop_while_fixed.
Qed.

Lemma drop_while_snoc l x :
  p x = false -> drop_while p (l ++ [x]) = drop_while p l ++ [x].
Proof.
  intros E. induction l as [|y l IH]; simpl; [by rewrite E|].
  by destruct (p y).
Qed.
End DropWhile.

Lemma rstrip_cons c s : is_space c = false -> rstrip (c :: s) = c :: rstrip s.
Proof.
  intros E. unfold rstrip. simpl.
  by rewrite drop_while_snoc, rev_unit.
Qed.

Lemma rstrip_idem s : rstrip (rstrip s) = rstrip s.
Proof. unfold rstrip. by rewrite rev_involutive, drop_while_idem. Qed.

Lemma strip_idem t : strip (strip t) = strip t.
Proof.
  unfold strip, lstrip.
  pose proof (drop_while_head is_space t) as H.
  destruct (drop_while is_space t) as [|c u]; [done|].
  rewrite (rstrip_cons c u H), (drop_while_fixed _ _ _ H), <- (rstrip_cons c u H).
  apply rstrip_idem.
Qed.

Lemma strip_length t : (length (strip t) <= length t)%nat.
Proof.
  unfold strip, rstrip, lstrip. rewrite length_rev.
  etrans; [apply drop_while_length|]. rewrite length_rev.
  apply drop_while_length.
Qed.

Lemma collapse_ws_aux_length b s : (length (collapse_ws_aux b s) <= length s)%nat.
Proof.
  revert b. induction s as [|c s IH]; intros b; simpl; [done|].
  pose proof (IH true). pose proof (IH false).
  destruct (is_space c); [destruct b|]; simpl; lia.
Qed.

(** Normalisation never lengthens the trimmed text. *)
Lemma clean_text_length_strip t : (length (clean_text t) <= length (strip t))%nat.
Proof.
  unfold clean_text. destruct t as [|c t]; [apply Nat.le_0_l|].
  etrans; [apply length_filter|]. apply collapse_ws_aux_length.
Qed.

Lemma clean_text_length t : (length (clean_text t) <= length t)%nat.
Proof. etrans; [apply clean_text_length_strip|apply strip_length]. Qed.

(** Normalisation trims first, so trimming beforehand is immaterial. *)
Lemma clean_text_strip t : clean_text (strip t) = clean_text t.
Proof.
  unfold clean_text. rewrite strip_idem.
  destruct (strip t) eqn:E; destruct t; try done.
Qed.

(** ** Title resolution: the metadata strategy *)

Lemma metadata_strategy_valid d t :
  doc_metadata_title d = Some t -> (3 < length (clean_text t))%nat ->
  metadata_strategy d = Some (clean_text t).
Proof.
  intros Ht Hlen. unfold metadata_strategy. rewrite Ht. simpl.
  pose proof (clean_text_length_strip t) as Hle.
  rewrite clean_text_strip.
  rewrite bool_decide_eq_false_2 by (intros E; rewrite E in Hle; simpl in Hle; lia).
  by rewrite (proj2 (Nat.ltb_lt 3 (length (strip t)))) by lia.
Qed.

(** C4: when the metadata title, once normalised, is non-empty and longer
    than 3 characters, the Title Resolver returns the normalised metadata
    title; and the metadata strategy is passed over only when the title is
    not such a title. *)
Theorem C4_metadata_title_returned d :
  (forall t, doc_metadata_title d = Some t ->
     clean_text t ≠ [] -> (3 < length (clean_text t))%nat ->
     extract_title_from_pdf d = Ok (clean_text t))
  /\ (metadata_strategy d = None ->
      ¬ (3 < length (clean_text (default [] (doc_metadata_title d))))%nat).
Proof.
  split.
  - intros t Ht _ Hlen. unfold extract_title_from_pdf.
    by rewrite (metadata_strategy_valid d t).
  - intros Hnone Hlen. destruct (doc_metadata_title d) as [t|] eqn:Ht.
    + by rewrite (metadata_strategy_valid d t) in Hnone.
    + simpl in Hlen. lia.
Qed.

(** The length test is made on the trimmed title, before normalisation:
    a title that normalisation shortens to 3 characters or less, or
    empties, is returned all the same. *)
Lemma metadata_title_tested_before_normalisation :
  extract_title_from_pdf {| doc_metadata_title := Some (py "a  b"); doc_pages := [] |}
  = Ok (py "a b")
  /\ extract_title_from_pdf {| doc_metadata_title := Some (py "@@@@@"); doc_pages := [] |}
     = Ok [].
Proof. split; vm_compute; reflexivity. Qed.

(** C8: two documents with the same valid metadata title receive the same
    title, whatever their pages contain. *)
Theorem C8_title_independent_of_pages d1 d2 t :
  doc_metadata_title d1 = Some t -> doc_metadata_title d2 = Some t ->
  clean_text t ≠ [] -> (3 < length (clean_text t))%nat ->
  extract_title_from_pdf d1 = extract_title_from_pdf d2.
Proof.
  intros H1 H2 _ Hlen. unfold extract_title_from_pdf.
  by rewrite (metadata_strategy_valid d1 t), (metadata_strategy_valid d2 t).
Qed.

(** ** Classification *)

(** The comparison of the digit ratio with 0.3, in whole numbers. *)
Lemma ratio_gt_iff (a b : nat) :
  (0 < b)%nat -> dec 0.3 < of_nat a / of_nat b <-> (3 * b < 10 * a)%nat.
Proof.
  intros Hb. unfold Qclt, Qcdiv, Qcmult, Qcinv, of_nat, dec, Q2Qc. cbn [this].
  rewrite !Qred_correct.
  unfold Qlt, Qmult, Qinv, inject_Z. cbn [Qnum Qden].
  destruct (Z.of_nat b) as [|q|q] eqn:E; [lia| |lia].
  cbn [Qnum Qden]. rewrite Pos.mul_1_l. lia.
Qed.

Lemma number_ratio_gt t :
  t ≠ [] -> dec 0.3 < number_ratio t <-> (3 * length t < 10 * count_digits t)%nat.
Proof.
  intros Ht. apply ratio_gt_iff. destruct t; [done|simpl; lia].
Qed.

(** C6: a text in which more than three characters in ten are digits is
    rejected whatever its font size or boldness; so is the text
    2023 2024 2025 2026, with 16 digits among its 19 characters. *)
Theorem C6_digit_ratio_rejected :
  (forall t font_size is_bold avg doc_stats,
     (3 * length t < 10 * count_digits t)%nat ->
     is_likely_heading t font_size is_bold avg doc_stats = false)
  /\ count_digits (py "2023 2024 2025 2026") = 16%nat
  /\ length (py "2023 2024 2025 2026") = 19%nat
  /\ (forall font_size is_bold avg doc_stats,
       is_likely_heading (py "2023 2024 2025 2026") font_size is_bold avg doc_stats = false).
Proof.
  assert (forall t font_size is_bold avg doc_stats,
     (3 * length t < 10 * count_digits t)%nat ->
     is_likely_heading t font_size is_bold avg doc_stats = false) as H.
  { intros t font_size is_bold avg doc_stats Hr. unfold is_likely_heading.
    destruct (decide (t = [])) as [->|Ht]; [done|].
    rewrite (bool_decide_eq_false_2 _ Ht). simpl.
    destruct (length (strip t) <? 3); [done|].
    destruct (20 <? length (split t)); [done|].
    by rewrite bool_decide_eq_true_2 by (by apply number_ratio_gt). }
  split; [exact H|]. split; [done|]. split; [done|].
  intros. apply H. vm_compute. lia.
Qed.

(** C10, as the code has it: a bold text of at most 8 words that passes
    the three filters at the head of the function (at least 3 characters
    once trimmed, at most 20 words, at most three digits in ten characters)
    is accepted, whatever its font size and the document average. *)
Theorem C10_bold_and_brief_accepted t font_size avg doc_stats :
  (3 <= length (strip t))%nat ->
  (length (split t) <= 20)%nat ->
  (10 * count_digits t <= 3 * length t)%nat ->
  (length (split t) <= 8)%nat ->
  is_likely_heading t font_size true avg doc_stats = true.
Proof.
  intros Hlen Hw20 Hr Hw8. unfold is_likely_heading.
  assert (t ≠ []) as Ht by (intros ->; vm_compute in Hlen; lia).
  rewrite (bool_decide_eq_false_2 _ Ht). simpl.
  rewrite (proj2 (Nat.ltb_ge (length (strip t)) 3)) by done.
  rewrite (proj2 (Nat.ltb_ge 20 (length (split t)))) by done.
  rewrite bool_decide_eq_false_2 by (rewrite number_ratio_gt by done; lia).
  unfold heading_score.
  rewrite (proj2 (Nat.leb_le (length (split t)) 8)) by done.
  repeat match goal with |- context [if ?b then _ else _] => destruct b end;
    reflexivity.
Qed.

(** C10 as stated fails: a cleaned length of 3 is not enough.  The bold
    span with text @ ab is cleaned to a blank followed by ab, of length
    3, one word and no digit; the first filter trims it to 2 characters
    and rejects it, and the outline of the document stays empty. *)
Lemma C10_counterexample :
  clean_text (py "@ ab") = py " ab"
  /\ length (clean_text (py "@ ab")) = 3%nat
  /\ length (split (clean_text (py "@ ab"))) = 1%nat
  /\ count_digits (clean_text (py "@ ab")) = 0%nat
  /\ tb_text <$> text_blocks artifact_bold_doc = py " ab" :: []
  /\ tb_bold <$> text_blocks artifact_bold_doc = true :: []
  /\ is_likely_heading (clean_text (py "@ ab")) (of_Z 30) true (of_Z 12) no_stats = false
  /\ (forall font_size avg doc_stats,
        is_likely_heading (clean_text (py "@ ab")) font_size true avg doc_stats = false)
  /\ outline (extract_outline artifact_bold_doc) = [].
Proof. repeat split; vm_compute; reflexivity. Qed.

(** ** The worked example *)

Lemma single_heading_level h font_stats :
  determine_heading_levels (h :: []) font_stats = set_level (py "H1") h :: [].
Proof.
  rewrite levels_by_rank. simpl. unfold size_rank. simpl.
  by rewrite filter_cons_False by apply (irreflexivity Qclt).
Qed.

(** C1: for the text INTRODUCTION at size 24 against an average of 12 the
    score is 8, made of +2 and +2 for the size, +3 for the pattern of
    capitals and +1 for brevity; the span is accepted; a lone candidate is
    given H1; and a document whose page 1 holds only that span, with
    average size 12, has the outline of that single H1 entry. *)
Theorem C1_introduction_example :
  bool_decide (of_Z 12 * dec 1.1 ≤ of_Z 24) = true
  /\ bool_decide (of_Z 12 * dec 1.3 ≤ of_Z 24) = true
  /\ re_match pat_all_caps (strip (py "INTRODUCTION")) = true
  /\ is_title_case (py "INTRODUCTION") = false
  /\ (length (split (py "INTRODUCTION")) <=? 8) = true
  /\ heading_score (py "INTRODUCTION") (of_Z 24) false (of_Z 12) = 8%nat
  /\ (forall doc_stats,
        is_likely_heading (py "INTRODUCTION") (of_Z 24) false (of_Z 12) doc_stats = true)
  /\ (forall h font_stats,
        determine_heading_levels (h :: []) font_stats = set_level (py "H1") h :: [])
  /\ avg_font_size (extract_font_statistics introduction_doc) = of_Z 12
  /\ text_blocks_of_page 1 (hd [] (doc_pages introduction_doc)) = introduction_block :: []
  /\ extract_outline introduction_doc
     = {| title := untitled;
          outline := {| oe_level := py "H1"; oe_text := py "INTRODUCTION"; oe_page := 1 |}
                     :: [] |}.
Proof.
  repeat split; try (vm_compute; reflexivity).
  - intros. apply single_heading_level.
  - apply Qc_is_canon. vm_compute. reflexivity.
  - vm_compute. do 2 f_equal; apply Qc_is_canon; reflexivity.
Qed.

(** ** Font statistics *)

Lemma stat_step_sizes spans font_sizes font_counts :
  (foldl stat_step (font_sizes, font_counts) spans).1
  = font_sizes ++ map (λ sp, round1 (span_size sp)) (filter trimmed_qualifies spans).
Proof.
  revert font_sizes font_counts.
  induction spans as [|sp spans IH]; intros font_sizes font_counts; simpl.
  - by rewrite app_nil_r.
  - unfold trimmed_qualifies at 1.
    destruct (decide (2 < length (strip (span_text sp)))%nat) as [Hq|Hq].
    + rewrite filter_cons_True by done.
      rewrite bool_decide_eq_false_2 by (intros E; rewrite E in Hq; simpl in Hq; lia).
      rewrite (proj2 (Nat.ltb_lt _ _) Hq). simpl.
      rewrite IH. by rewrite <- app_assoc.
    + rewrite filter_cons_False by done.
      rewrite (proj2 (Nat.ltb_ge _ _)) by lia.
      rewrite andb_false_r. apply IH.
Qed.

(** C5, as the code has it: the average is the mean of the sizes, rounded
    to one decimal, of the spans whose trimmed text has more than 2
    characters, and 12 when there is no such span. *)
Theorem C5_average_of_trimmed_spans d :
  avg_font_size (extract_font_statistics d)
  = match averaged_sizes d with
    | [] => of_Z 12
    | sizes => mean sizes
    end.
Proof.
  unfold extract_font_statistics, collect_stats, averaged_sizes.
  pose proof (stat_step_sizes (doc_spans d) [] []) as E.
  destruct (foldl stat_step ([], []) (doc_spans d)) as [font_sizes font_counts].
  simpl in E. subst font_sizes. simpl.
  by destruct (map _ _).
Qed.

(** C5 as stated fails: a span of artifact characters enters the average
    although its normalised text is empty (15 against 10), and the sizes
    averaged are the rounded ones (10 against 10.04). *)
Lemma C5_counterexample :
  avg_font_size (extract_font_statistics artifact_doc) = of_Z 15
  /\ spec_avg_font_size artifact_doc = of_Z 10
  /\ avg_font_size (extract_font_statistics artifact_doc) ≠ spec_avg_font_size artifact_doc
  /\ avg_font_size (extract_font_statistics fractional_doc) = of_Z 10
  /\ spec_avg_font_size fractional_doc = dec 10.04
  /\ avg_font_size (extract_font_statistics fractional_doc) ≠ spec_avg_font_size fractional_doc.
Proof.
  repeat split; try (apply Qc_is_canon; vm_compute; reflexivity);
    intros E; apply (f_equal this) in E; vm_compute in E; discriminate.
Qed.

(** ** Documents without qualifying spans *)

Lemma flat_map_nil {A B} (f : A -> list B) (l : list A) :
  (forall x, x ∈ l -> f x = []) -> flat_map f l = [].
Proof.
  induction l as [|x l IH]; intros H; simpl; [done|].
  rewrite (H x) by left. apply IH. intros y Hy. apply H. by right.
Qed.

Lemma page_span_in_doc d p e :
  p ∈ doc_pages d -> e ∈ page_entries p -> e.2 ∈ doc_spans d.
Proof.
  intros Hp He. unfold doc_spans.
  apply list_elem_of_In, in_flat_map. exists p. split; [by apply list_elem_of_In|].
  apply in_map. by apply list_elem_of_In.
Qed.

Lemma text_blocks_none d :
  Forall short_text (doc_spans d) -> text_blocks d = [].
Proof.
  intros Hall. unfold text_blocks. apply flat_map_nil. intros [n p] Hnp.
  apply elem_of_lookup_imap in Hnp as (i & q & [= -> ->] & Hq).
  apply list_elem_of_lookup_2 in Hq.
  unfold text_blocks_of_page. apply flat_map_nil. intros [ln sp] He.
  pose proof (page_span_in_doc d q _ Hq He) as Hsp.
  eapply Forall_forall in Hall; [|exact Hsp]. unfold short_text in Hall. simpl in Hall.
  rewrite (proj2 (Nat.ltb_lt _ 3)) by lia. by rewrite orb_true_r.
Qed.

Lemma title_candidates_none d p :
  p ∈ doc_pages d -> Forall short_text (doc_spans d) -> title_candidates p = [].
Proof.
  intros Hp Hall. unfold title_candidates. apply flat_map_nil. intros [ln sp] He.
  pose proof (page_span_in_doc d p _ Hp He) as Hsp.
  eapply Forall_forall in Hall; [|exact Hsp]. unfold short_text in Hall. simpl in Hall.
  rewrite (proj2 (Nat.leb_gt 10 _)) by lia. by rewrite andb_false_r.
Qed.

(** Spans that the statistics pass over are short after normalisation as
    well. *)
Lemma not_trimmed_qualifies_short sp : ¬ trimmed_qualifies sp -> short_text sp.
Proof.
  unfold trimmed_qualifies, short_text. intros H.
  pose proof (clean_text_length_strip (span_text sp)). lia.
Qed.

(** C7, as the code has it: a document with at least one page, no
    metadata title and no span of more than 2 characters after
    normalisation yields the title Untitled Document and an empty
    outline. *)
Theorem C7_nothing_found d :
  doc_pages d ≠ [] ->
  default [] (doc_metadata_title d) = [] ->
  Forall short_text (doc_spans d) ->
  extract_outline d = untitled_result.
Proof.
  intros Hpages Hmeta Hall.
  unfold extract_outline, extract_outline_body.
  rewrite (text_blocks_none d Hall). simpl.
  unfold extract_title_from_pdf, metadata_strategy. rewrite Hmeta. simpl.
  destruct (doc_pages d) as [|p ps] eqn:E; [done|].
  unfold geometry_strategy.
  rewrite (title_candidates_none d p); [done| |done].
  rewrite E. left.
Qed.

(** C7 as stated fails on a document without pages: reading the first
    page raises, and the handler returns the error result. *)
Lemma C7_counterexample :
  default [] (doc_metadata_title empty_doc) = []
  /\ doc_spans empty_doc = []
  /\ extract_title_from_pdf empty_doc = Raise IndexError
  /\ extract_outline empty_doc = error_result
  /\ extract_outline empty_doc ≠ untitled_result.
Proof. repeat split; done. Qed.

(** ** Title resolution: the geometry strategy *)

Lemma key_le_total k1 k2 : key_le k1 k2 = true \/ key_le k2 k1 = true.
Proof.
  unfold key_le.
  destruct (Qc_dec k1.1 k2.1) as [[Hlt|Hgt]|Heq].
  - left. by rewrite (bool_decide_eq_true_2 _ Hlt).
  - right. by rewrite (bool_decide_eq_true_2 _ Hgt).
  - rewrite Heq, (bool_decide_eq_true_2 (k2.1 = k2.1)) by done.
    destruct (total Qcle k1.2 k2.2) as [H|H];
      [left|right]; rewrite (bool_decide_eq_true_2 _ H); apply orb_true_r.
Qed.

Lemma key_le_spec k1 k2 :
  key_le k1 k2 = true <-> k1.1 < k2.1 \/ (k1.1 = k2.1 /\ k1.2 ≤ k2.2).
Proof.
  unfold key_le.
  rewrite orb_true_iff, andb_true_iff, !bool_decide_eq_true. tauto.
Qed.

Lemma key_le_trans k1 k2 k3 :
  key_le k1 k2 = true -> key_le k2 k3 = true -> key_le k1 k3 = true.
Proof.
  rewrite !key_le_spec. intros [H1|[E1 H1]] [H2|[E2 H2]].
  - left. by eapply Qclt_trans.
  - left. by rewrite <- E2.
  - left. by rewrite E1.
  - right. split; [congruence|]. by etrans.
Qed.

Lemma Qcopp_lt (a b : Qc) : - a < - b -> b < a.
Proof.
  intros H. apply Qclt_nge. intros Hle. apply Qcopp_le_compat in Hle.
  by apply Qclt_nge in H.
Qed.

(** A candidate that precedes another in the sort order is at least as
    large, and not lower on the page when the sizes are equal. *)
Lemma cand_le_spec a b :
  cand_le a b = true ->
  tc_size b ≤ tc_size a /\ (tc_size b = tc_size a -> tc_y a ≤ tc_y b).
Proof.
  unfold cand_le. rewrite key_le_spec. simpl. intros [H|[E H]].
  - apply Qcopp_lt in H. split; [by apply Qclt_le_weak|].
    intros E. rewrite E in H. by destruct (Qclt_asym _ _ H H).
  - apply (inj Qcopp) in E. by rewrite E.
Qed.

(** Once a candidate is kept it stays at the head. *)
Lemma filter_step_head l c acc :
  exists acc', foldl filter_step (c :: acc) l = c :: acc'.
Proof.
  revert acc. induction l as [|x l IH]; intros acc; simpl; [eauto|].
  unfold filter_step at 2. destruct (is_duplicate (c :: acc) x); [apply IH|].
  apply (IH (acc ++ [x])).
Qed.

(** The first sorted candidate is always kept: nothing was kept before. *)
Lemma filter_first c l :
  exists acc', foldl filter_step [] (c :: l) = c :: acc'.
Proof. simpl. unfold filter_step at 2. simpl. apply filter_step_head. Qed.

Lemma geometry_is_first_sorted p : geometry_strategy p = first_sorted_title p.
Proof.
  unfold geometry_strategy, first_sorted_title.
  destruct (title_candidates p) as [|c0 l0] eqn:E; [done|].
  destruct (sort_candidates (c0 :: l0)) as [|c l] eqn:Es.
  - by apply sort_by_nil in Es.
  - by destruct (filter_first c l) as [acc' ->].
Qed.

(** C9: the suppression of near-duplicates never changes the title. The
    resolver equals the one that returns the first sorted candidate, and
    when page 1 has a candidate the title is the text of a candidate of
    maximal size, of smallest y among those of that size. *)
Theorem C9_suppression_is_inert :
  (forall d, extract_title_from_pdf d = extract_title_without_suppression d)
  /\ (forall p, geometry_strategy p = first_sorted_title p)
  /\ (forall p, title_candidates p ≠ [] ->
        exists c, c ∈ title_candidates p
                  /\ geometry_strategy p = tc_text c
                  /\ forall c', c' ∈ title_candidates p ->
                       tc_size c' ≤ tc_size c
                       /\ (tc_size c' = tc_size c -> tc_y c ≤ tc_y c')).
Proof.
  split; [|split].
  - intros d. unfold extract_title_from_pdf, extract_title_without_suppression.
    destruct (metadata_strategy d); [done|].
    destruct (doc_pages d); [done|]. by rewrite geometry_is_first_sorted.
  - apply geometry_is_first_sorted.
  - intros p Hne. rewrite geometry_is_first_sorted. unfold first_sorted_title.
    destruct (sort_candidates (title_candidates p)) as [|c l] eqn:Es.
    { by apply sort_by_nil in Es. }
    apply (sort_by_head cand_le) in Es as [Hin Hmin].
    + exists c. split; [done|]. split; [done|].
      intros c' Hc'. apply cand_le_spec. by apply Hmin.
    + intros a b. apply key_le_total.
    + intros a b c1. apply key_le_trans.
Qed.

(** ** The theorems at concrete inputs *)

(** C2 at a concrete input: seven candidates of seven sizes: the largest receives H1, the smallest H6. *)
Lemma C2_witness :
  sized_block 20 ∈ seven_sizes
  /\ size_rank seven_sizes (tb_size (sized_block 20)) = 1%nat
  /\ set_level (py "H1") (sized_block 20)
       ∈ determine_heading_levels seven_sizes no_stats
  /\ sized_block 8 ∈ seven_sizes
  /\ (6 < size_rank seven_sizes (tb_size (sized_block 8)))%nat
  /\ set_level (py "H6") (sized_block 8)
       ∈ determine_heading_levels seven_sizes no_stats.
Proof.
  assert (sized_block 20 ∈ seven_sizes) as H20 by (by eapply (list_elem_of_lookup_2 _ 0%nat)).
  assert (sized_block 8 ∈ seven_sizes) as H8 by (by eapply (list_elem_of_lookup_2 _ 6%nat)).
  assert (size_rank seven_sizes (tb_size (sized_block 20)) = 1%nat) as R20
    by (vm_compute; reflexivity).
  assert (6 < size_rank seven_sizes (tb_size (sized_block 8)))%nat as R8
    by (vm_compute; lia).
  destruct (C2_levels_by_rank_saturating seven_sizes no_stats) as (_ & Hlow & Hhigh & _).
  split; [exact H20|]. split; [exact R20|].
  split; [exact (Hlow _ 1%nat H20 R20 ltac:(lia))|].
  split; [exact H8|]. split; [exact R8|].
  exact (Hhigh _ H8 R8).
Defined.

(** C3 at a concrete input: two candidates of sizes 20 and 18. *)
Lemma C3_witness :
  let A := set_level (py "H1") (sized_block 20) in
  let B := set_level (py "H2") (sized_block 18) in
  A ∈ determine_heading_levels two_sizes no_stats
  /\ B ∈ determine_heading_levels two_sizes no_stats
  /\ tb_size B < tb_size A
  /\ (tb_size B < tb_size A ->
        exists la lb, tb_level A = Some la /\ tb_level B = Some lb
                      /\ (level_ordinal la <= level_ordinal lb)%nat)
  /\ (tb_size A = tb_size B -> tb_level A = tb_level B).
Proof.
  intros A B.
  assert (A ∈ determine_heading_levels two_sizes no_stats) as HA.
  { apply list_elem_of_In. vm_compute. right. left. reflexivity. }
  assert (B ∈ determine_heading_levels two_sizes no_stats) as HB.
  { apply list_elem_of_In. vm_compute. left. reflexivity. }
  split; [exact HA|]. split; [exact HB|]. split; [reflexivity|].
  exact (C3_levels_monotone two_sizes no_stats A B HA HB).
Defined.

(** C4 at a concrete input: a metadata title with blanks around it. *)
Lemma C4_witness :
  let d := titled_doc (doc_pages two_titles_doc) in
  let t := py "  Annual Report  " in
  doc_metadata_title d = Some t
  /\ clean_text t = py "Annual Report"
  /\ extract_title_from_pdf d = Ok (clean_text t).
Proof.
  intros d t. split; [reflexivity|]. split; [vm_compute; reflexivity|].
  apply (proj1 (C4_metadata_title_returned d) t).
  - reflexivity.
  - vm_compute. discriminate.
  - vm_compute. lia.
Defined.

(** C6 at a concrete input: the text of the claim, large and bold. *)
Lemma C6_witness :
  (3 * length (py "2023 2024 2025 2026") < 10 * count_digits (py "2023 2024 2025 2026"))%nat
  /\ is_likely_heading (py "2023 2024 2025 2026") (of_Z 30) true (of_Z 12) no_stats = false.
Proof.
  assert (3 * length (py "2023 2024 2025 2026")
          < 10 * count_digits (py "2023 2024 2025 2026"))%nat as H
    by (vm_compute; lia).
  split; [exact H|].
  exact (proj1 C6_digit_ratio_rejected _ (of_Z 30) true (of_Z 12) no_stats H).
Defined.

(** C7 at a concrete input: a document of one page with one blank span. *)
Lemma C7_witness :
  doc_pages blank_doc ≠ []
  /\ default [] (doc_metadata_title blank_doc) = []
  /\ Forall short_text (doc_spans blank_doc)
  /\ extract_outline blank_doc = untitled_result.
Proof.
  assert (doc_pages blank_doc ≠ []) as H1 by discriminate.
  assert (default [] (doc_metadata_title blank_doc) = []) as H2 by reflexivity.
  assert (Forall short_text (doc_spans blank_doc)) as H3.
  { unfold doc_spans. simpl.
    constructor; [unfold short_text; vm_compute; lia | constructor]. }
  split; [exact H1|]. split; [exact H2|]. split; [exact H3|].
  exact (C7_nothing_found blank_doc H1 H2 H3).
Defined.

(** C8 at a concrete input: the same title over two different sets of pages. *)
Lemma C8_witness :
  let t := py "  Annual Report  " in
  let d1 := titled_doc (doc_pages two_titles_doc) in
  let d2 := titled_doc (doc_pages introduction_doc) in
  doc_pages d1 ≠ doc_pages d2
  /\ extract_title_from_pdf d1 = extract_title_from_pdf d2.
Proof.
  intros t d1 d2. split; [discriminate|].
  apply (C8_title_independent_of_pages d1 d2 t).
  - reflexivity.
  - reflexivity.
  - vm_compute. discriminate.
  - vm_compute. lia.
Defined.

(** C9 at a concrete input: two candidates of equal size: the one higher on the page wins. *)
Lemma C9_witness :
  let p := hd [] (doc_pages two_titles_doc) in
  title_candidates p ≠ []
  /\ geometry_strategy p = py "The First Heading"
  /\ exists c, c ∈ title_candidates p
               /\ geometry_strategy p = tc_text c
               /\ forall c', c' ∈ title_candidates p ->
                    tc_size c' ≤ tc_size c
                    /\ (tc_size c' = tc_size c -> tc_y c ≤ tc_y c').
Proof.
  intros p.
  assert (title_candidates p ≠ []) as H by (vm_compute; discriminate).
  split; [exact H|]. split; [vm_compute; reflexivity|].
  exact (proj2 (proj2 C9_suppression_is_inert) p H).
Defined.

(** C10 at a concrete input: a bold one-word text at half the average size. *)
Lemma C10_witness :
  (3 <= length (strip (py "Summary")))%nat
  /\ (length (split (py "Summary")) <= 8)%nat
  /\ (10 * count_digits (py "Summary") <= 3 * length (py "Summary"))%nat
  /\ is_likely_heading (py "Summary") (of_Z 6) true (of_Z 12) no_stats = true.
Proof.
  assert (3 <= length (strip (py "Summary")))%nat as H1 by (vm_compute; lia).
  assert (length (split (py "Summary")) <= 20)%nat as H2 by (vm_compute; lia).
  assert (10 * count_digits (py "Summary") <= 3 * length (py "Summary"))%nat as H3
    by (vm_compute; lia).
  assert (length (split (py "Summary")) <= 8)%nat as H4 by (vm_compute; lia).
  split; [exact H1|]. split; [exact H4|]. split; [exact H3|].
  exact (C10_bold_and_brief_accepted (py "Summary") (of_Z 6) (of_Z 12) no_stats H1 H2 H3 H4).
Defined.

(** * Further properties *)

(** ** The earlier variant: scanning *)

Example app_ex1 :
  app_extract_outline introduction_doc
  = Ok {| title := py "INTRODUCTION";
          outline :=
            {| oe_level := py "H1"; oe_text := py "INTRODUCTION"; oe_page := 1 |}
            :: {| oe_level := py "H2"; oe_text := py "this is the first line of the body"; oe_page := 2 |}
            :: {| oe_level := py "H2"; oe_text := py "and this is the second one of it"; oe_page := 2 |}
            :: {| oe_level := py "H2"; oe_text := py "the third line ends the page."; oe_page := 2 |}
            :: [] |}.
Proof. vm_compute. reflexivity. Qed.
Example app_ex2 :
  app_extract_outline late_title_doc
  = Ok {| title := [];
          outline :=
            {| oe_level := py "H2"; oe_text := py "a small opening line"; oe_page := 1 |}
            :: {| oe_level := py "H1"; oe_text := py "The Real Title"; oe_page := 2 |}
            :: [] |}.
Proof. vm_compute. reflexivity. Qed.
Example app_ex3 : app_extract_outline empty_doc = Ok {| title := []; outline := [] |}.
Proof. vm_compute. reflexivity. Qed.

Lemma app_step_fold n spans (fs : gmap Qc nat) bs :
  (foldl (app_step n) (fs, bs) spans).2 = bs ++ app_blocks_of n spans
  /\ dom (foldl (app_step n) (fs, bs) spans).1
     = dom fs ∪ list_to_set (ab_size <$> app_blocks_of n spans).
Proof.
  revert fs bs. induction spans as [|sp spans IH]; intros fs bs; simpl.
  - by rewrite app_nil_r, (right_id_L ∅ (∪)).
  - destruct (bool_decide (strip (span_text sp) = []) || (length (strip (span_text sp)) <? 3));
      simpl; [apply IH|].
    destruct (IH (<[round1 (span_size sp) := (default 0 (fs !! round1 (span_size sp)) + 1)%nat]> fs)
                 (bs ++ [ {| ab_text := strip (span_text sp);
                             ab_size := round1 (span_size sp); ab_page := n |} ]))
      as [E1 E2].
    rewrite E1, E2, dom_insert_L, <- app_assoc. split; [done|].
    by rewrite (comm_L (∪) {[round1 (span_size sp)]} (dom fs)), (assoc_L (∪)).
Qed.

Lemma app_pages_fold (pages : list (nat * Page)) (fs : gmap Qc nat) bs :
  let blocks := flat_map (λ '(page_num, p), app_blocks_of page_num (map snd (page_entries p)))
                         pages in
  let st := foldl (λ st '(page_num, p),
                     foldl (app_step page_num) st (map snd (page_entries p)))
                  (fs, bs) pages in
  st.2 = bs ++ blocks /\ dom st.1 = dom fs ∪ list_to_set (ab_size <$> blocks).
Proof.
  revert fs bs. induction pages as [|[n p] pages IH]; intros fs bs; simpl.
  - by rewrite app_nil_r, (right_id_L ∅ (∪)).
  - destruct (app_step_fold n (map snd (page_entries p)) fs bs) as [E1 E2].
    destruct (foldl (app_step n) (fs, bs) (map snd (page_entries p))) as [fs1 bs1].
    simpl in E1, E2. destruct (IH fs1 bs1) as [F1 F2]. simpl in F1, F2.
    rewrite F1, F2, E1, E2, fmap_app, list_to_set_app_L, <- app_assoc.
    by rewrite (assoc_L (∪)).
Qed.

(** What the scan leaves: the blocks in document order, and a dictionary
    whose keys are their sizes. *)
Lemma app_scan_spec d :
  (app_scan d).2 = app_blocks d
  /\ dom (app_scan d).1 = list_to_set (ab_size <$> app_blocks d).
Proof.
  destruct (app_pages_fold (enumerate_pages d) ∅ []) as [E1 E2].
  unfold app_scan, app_blocks. split; [exact E1|].
  rewrite E2. by rewrite dom_empty_L, (left_id_L ∅ (∪)).
Qed.

(** ** The earlier variant: the level map *)

Lemma app_level_fold_absent l k (m : gmap Qc text) s :
  s ∉ l ->
  foldl (λ m '(i, size), <[size := level_name (S i)]> m) m
        (imap (λ i size, (k + i, size)%nat) l) !! s = m !! s.
Proof.
  revert k m. induction l as [|x l IH]; intros k m Hs; [done|].
  apply not_elem_of_cons in Hs as [Hne Hs].
  rewrite imap_cons. simpl.
  rewrite (imap_ext _ (λ i size, (S k + i, size)%nat)) by (intros; simpl; f_equal; lia).
  rewrite IH by done. by apply lookup_insert_ne.
Qed.

Lemma app_level_fold_lookup l k (m : gmap Qc text) s i :
  NoDup l -> l !! i = Some s ->
  foldl (λ m '(i, size), <[size := level_name (S i)]> m) m
        (imap (λ i size, (k + i, size)%nat) l) !! s = Some (level_name (S (k + i))).
Proof.
  revert k m i. induction l as [|x l IH]; intros k m i Hnd Hi; [done|].
  apply NoDup_cons in Hnd as [Hx Hnd].
  rewrite imap_cons. simpl.
  rewrite (imap_ext _ (λ i size, (S k + i, size)%nat)) by (intros; simpl; f_equal; lia).
  destruct i as [|i]; simpl in Hi.
  - injection Hi as ->. rewrite app_level_fold_absent by done.
    rewrite Nat.add_0_r. apply lookup_insert_eq.
  - rewrite (IH _ _ i) by done. do 2 f_equal. lia.
Qed.

(** Only the four largest sizes receive a level name. *)
Lemma app_level_lookup l s i :
  NoDup l -> l !! i = Some s ->
  app_level_map l !! s = if (i <? 4)%nat then Some (level_name (S i)) else None.
Proof.
  intros Hnd Hi. unfold app_level_map.
  destruct (i <? 4)%nat eqn:E.
  - apply Nat.ltb_lt in E.
    apply (app_level_fold_lookup (take 4 l) 0 ∅ s i).
    + exact (sublist_NoDup _ _ Hnd (sublist_take l 4)).
    + by rewrite lookup_take_lt.
  - apply Nat.ltb_ge in E.
    rewrite (app_level_fold_absent (take 4 l) 0 ∅ s); [done|].
    intros Hin. apply elem_of_take in Hin as (j & Hj & Hlt).
    pose proof (NoDup_lookup _ _ _ _ Hnd Hi Hj). lia.
Qed.

Lemma flat_map_ext_in {A B} (f g : A -> list B) (l : list A) :
  (forall x, x ∈ l -> f x = g x) -> flat_map f l = flat_map g l.
Proof.
  induction l as [|x l IH]; intros H; simpl; [done|].
  rewrite (H x) by left. f_equal. apply IH. intros y Hy. apply H. by right.
Qed.

(** The sorted keys of the dictionary, and the place of a size in them. *)
Lemma sorted_keys_index (keys sizes : list Qc) s :
  NoDup keys -> keys ≡ₚ remove_dups sizes -> s ∈ sizes ->
  exists i, sort_desc keys !! i = Some s /\ rank_among sizes s = S i.
Proof.
  intros Hnd Hp Hs.
  assert (s ∈ sort_desc keys) as Hin
    by (by rewrite sort_desc_perm, Hp, elem_of_remove_dups).
  apply list_elem_of_lookup in Hin as [i Hi]. exists i. split; [done|].
  unfold rank_among. f_equal.
  rewrite <- (filter_length_perm _ _ _ Hp), <- (filter_length_perm _ _ _ (sort_desc_perm keys)).
  apply strict_desc_index; [by apply sort_desc_strict|done].
Qed.

(** The entry of the outline for a block of rank [r], if any. *)
Lemma app_outline_by_rank (fs : gmap Qc nat) blocks :
  dom fs = list_to_set (ab_size <$> blocks) ->
  app_outline (app_level_map (sort_desc (elements (dom fs)))) blocks
  = flat_map (λ b,
      let r := rank_among (ab_size <$> blocks) (ab_size b) in
      if (r <=? 4)%nat
      then {| oe_level := level_name r; oe_text := ab_text b; oe_page := ab_page b |} :: []
      else [])
    blocks.
Proof.
  intros Hdom. unfold app_outline. apply flat_map_ext_in. intros b Hb.
  destruct (sorted_keys_index (elements (dom fs)) (ab_size <$> blocks) (ab_size b))
    as (i & Hi & Hr).
  - apply NoDup_elements.
  - apply NoDup_Permutation; [apply NoDup_elements|apply NoDup_remove_dups|].
    intros x. by rewrite elem_of_elements, Hdom, elem_of_list_to_set, elem_of_remove_dups.
  - by apply list_elem_of_fmap_2.
  - rewrite (app_level_lookup _ _ i); [|by rewrite sort_desc_perm; apply NoDup_elements|done].
    cbv zeta. rewrite Hr. change (S i <=? 4)%nat with (i <? 4)%nat.
    by destruct (i <? 4)%nat.
Qed.

(** ** The earlier variant: the title *)

Lemma app_find_title_cons s0 r blocks :
  app_find_title (s0 :: r) blocks
  = Ok match filter (λ b, ab_page b = 1%nat /\ ab_size b = s0) blocks with
       | [] => []
       | b :: _ => ab_text b
       end.
Proof.
  induction blocks as [|b bs IH]; simpl; [done|].
  destruct (Nat.eqb_spec (ab_page b) 1) as [Hp|Hp].
  - destruct (decide (ab_size b = s0)) as [Hs|Hs].
    + rewrite bool_decide_eq_true_2 by done. by rewrite filter_cons_True.
    + rewrite bool_decide_eq_false_2 by done. rewrite filter_cons_False by tauto. apply IH.
  - rewrite filter_cons_False by tauto. apply IH.
Qed.

Lemma filter_ext_in {A} (P Q : A -> Prop) `{!∀ x, Decision (P x)} `{!∀ x, Decision (Q x)}
    (l : list A) :
  (forall x, x ∈ l -> P x <-> Q x) -> filter P l = filter Q l.
Proof.
  induction l as [|x l IH]; intros Hext; [done|].
  assert (filter P l = filter Q l) as E by (apply IH; intros y Hy; apply Hext; by right).
  destruct (decide (P x)) as [HP|HP].
  - rewrite !filter_cons_True; [by rewrite E|by apply Hext; [left|]|done].
  - rewrite !filter_cons_False; [done| |done]. intros HQ. apply HP, Hext; [left|done].
Qed.

(** The head of the sorted keys is the largest size. *)
Lemma sorted_keys_head (keys sizes : list Qc) s0 r :
  keys ≡ₚ remove_dups sizes -> sort_desc keys = s0 :: r ->
  s0 ∈ sizes /\ forall s, s ∈ sizes -> s ≤ s0.
Proof.
  intros Hp Es.
  apply (sort_by_head desc_le desc_le_total desc_le_trans) in Es as [Hin Hmax].
  split.
  - by rewrite Hp, elem_of_remove_dups in Hin.
  - intros s Hs. assert (s ∈ keys) as Hk by (by rewrite Hp, elem_of_remove_dups).
    apply Hmax in Hk. unfold desc_le in Hk. by apply bool_decide_eq_true in Hk.
Qed.

Lemma sorted_keys_nil (keys sizes : list Qc) :
  keys ≡ₚ remove_dups sizes -> sort_desc keys = [] -> sizes = [].
Proof.
  intros Hp Es. apply sort_by_nil in Es. subst keys.
  destruct sizes as [|x l]; [done|].
  assert (x ∈ remove_dups (x :: l)) as H by (apply elem_of_remove_dups; left).
  rewrite <- Hp in H. by apply elem_of_nil in H.
Qed.

Lemma app_blocks_of_spec n spans b :
  b ∈ app_blocks_of n spans ->
  ab_page b = n /\ strip (ab_text b) = ab_text b /\ (3 <= length (ab_text b))%nat.
Proof.
  unfold app_blocks_of. intros Hb.
  apply list_elem_of_In, in_flat_map in Hb as (sp & _ & Hb).
  destruct (bool_decide (strip (span_text sp) = []) || (length (strip (span_text sp)) <? 3))
    eqn:E; [done|].
  apply orb_false_iff in E as [_ E]. apply Nat.ltb_ge in E.
  destruct Hb as [<-|[]]. simpl. by rewrite strip_idem.
Qed.

(** Every collected block carries a trimmed text of at least 3 characters
    and the number of an existing page. *)
Lemma app_blocks_spec d b :
  b ∈ app_blocks d ->
  strip (ab_text b) = ab_text b /\ (3 <= length (ab_text b))%nat
  /\ (1 <= ab_page b <= length (doc_pages d))%nat.
Proof.
  unfold app_blocks. intros Hb.
  apply list_elem_of_In, in_flat_map in Hb as ([n p] & Hnp & Hb).
  apply list_elem_of_In, elem_of_lookup_imap in Hnp as (i & q & [= -> ->] & Hq).
  apply list_elem_of_In, app_blocks_of_spec in Hb as (-> & ? & ?).
  apply lookup_lt_Some in Hq. repeat split; [done|done|lia|lia].
Qed.

(** [extract_outline] of the earlier variant, in closed form. *)
Lemma app_closed_form d :
  app_extract_outline d
  = Ok {| title :=
            match filter (largest_on_page1 (app_blocks d)) (app_blocks d) with
            | [] => []
            | b :: _ => ab_text b
            end;
          outline :=
            flat_map (λ b,
                let r := rank_among (ab_size <$> app_blocks d) (ab_size b) in
                if (r <=? 4)%nat
                then {| oe_level := level_name r; oe_text := ab_text b;
                        oe_page := ab_page b |} :: []
                else [])
              (app_blocks d) |}.
Proof.
  unfold app_extract_outline.
  destruct (app_scan_spec d) as [E1 E2].
  destruct (app_scan d) as [fs bs]. simpl in E1, E2. subst bs.
  rewrite (app_outline_by_rank fs (app_blocks d) E2).
  assert (elements (dom fs) ≡ₚ remove_dups (ab_size <$> app_blocks d)) as Hp.
  { apply NoDup_Permutation; [apply NoDup_elements|apply NoDup_remove_dups|].
    intros x. by rewrite elem_of_elements, E2, elem_of_list_to_set, elem_of_remove_dups. }
  destruct (sort_desc (elements (dom fs))) as [|s0 r] eqn:Es.
  - apply (sorted_keys_nil _ _ Hp) in Es. apply fmap_nil_inv in Es. by rewrite Es.
  - rewrite app_find_title_cons. simpl.
    destruct (sorted_keys_head _ _ _ _ Hp Es) as [Hin Hmax].
    rewrite (filter_ext_in _ (largest_on_page1 (app_blocks d))).
    + destruct (filter _ _) as [|b l] eqn:Ef; [done|].
      assert (b ∈ app_blocks d) as Hb.
      { eapply (list_elem_of_filter (largest_on_page1 (app_blocks d))). rewrite Ef. left. }
      by rewrite (proj1 (app_blocks_spec d b Hb)).
    + intros b Hb. unfold largest_on_page1. split; intros [Hpg Hs]; (split; [done|]).
      * rewrite Hs. apply Forall_forall. intros b' Hb'.
        by apply Hmax, list_elem_of_fmap_2.
      * apply (anti_symm Qcle); [by apply Hmax, list_elem_of_fmap_2|].
        apply list_elem_of_fmap in Hin as (b0 & -> & Hb0).
        by eapply Forall_forall in Hs.
Qed.

(** X1: from the opened document on, the index [font_sizes[0]] of the
    title expression is never out of range: it is evaluated only for a
    collected block, and then [font_sizes] is not empty.  In particular a
    document in which no span has 3 characters once trimmed gives an empty
    title and an empty outline. *)
Theorem X1_app_index_in_range d :
  (exists r, app_extract_outline d = Ok r)
  /\ (app_blocks d = [] -> app_extract_outline d = Ok {| title := []; outline := [] |}).
Proof.
  rewrite app_closed_form. split; [eauto|]. by intros ->.
Qed.

(** X2: the outline of the earlier variant consists, in document order,
    of the blocks whose size is among the 4 largest distinct sizes, named
    H1 to H4 by the rank of the size; blocks of any smaller size are left
    out. *)
Theorem X2_app_outline_top_four d :
  exists t,
    app_extract_outline d
    = Ok {| title := t;
            outline :=
              flat_map (λ b,
                  let r := rank_among (ab_size <$> app_blocks d) (ab_size b) in
                  if (r <=? 4)%nat
                  then {| oe_level := level_name r; oe_text := ab_text b;
                          oe_page := ab_page b |} :: []
                  else [])
                (app_blocks d) |}.
Proof. rewrite app_closed_form. eauto. Qed.

(** X3: the title of the earlier variant is the text of the first block
    of page 1 whose size no block of the whole document exceeds, and the
    empty string when page 1 has no such block. *)
Theorem X3_app_title_largest_on_page1 d :
  exists o,
    app_extract_outline d
    = Ok {| title :=
              match filter (largest_on_page1 (app_blocks d)) (app_blocks d) with
              | [] => []
              | b :: _ => ab_text b
              end;
            outline := o |}.
Proof. rewrite app_closed_form. eauto. Qed.

(** X4: in the earlier variant a non-empty title is also the text of an
    H1 entry of page 1 in the outline. *)
Theorem X4_app_title_is_H1_entry d r :
  app_extract_outline d = Ok r -> title r ≠ [] ->
  {| oe_level := py "H1"; oe_text := title r; oe_page := 1 |} ∈ outline r.
Proof.
  rewrite app_closed_form. intros [= <-]. cbn [title outline].
  destruct (filter _ _) as [|b l] eqn:Ef; [done|]. intros _.
  assert (b ∈ filter (largest_on_page1 (app_blocks d)) (app_blocks d)) as Hb
    by (rewrite Ef; left).
  apply list_elem_of_filter in Hb as [[Hpg Hmax] Hb].
  apply list_elem_of_In, in_flat_map. exists b. split; [by apply list_elem_of_In|].
  assert (filter (λ x, ab_size b < x) (remove_dups (ab_size <$> app_blocks d)) = []) as E.
  { apply filter_none, Forall_forall. intros x Hx Hlt.
    apply elem_of_remove_dups, list_elem_of_fmap in Hx as (b' & -> & Hb').
    eapply Forall_forall in Hmax; [|exact Hb']. by apply Qcle_not_lt in Hmax. }
  unfold rank_among. rewrite E.
  simpl. left. by rewrite Hpg.
Qed.

(** X4 at a concrete input. *)
Lemma X4_witness :
  let r := {| title := py "INTRODUCTION";
              outline :=
                {| oe_level := py "H1"; oe_text := py "INTRODUCTION"; oe_page := 1 |}
                :: {| oe_level := py "H2"; oe_text := py "this is the first line of the body"; oe_page := 2 |}
                :: {| oe_level := py "H2"; oe_text := py "and this is the second one of it"; oe_page := 2 |}
                :: {| oe_level := py "H2"; oe_text := py "the third line ends the page."; oe_page := 2 |}
                :: [] |} in
  app_extract_outline introduction_doc = Ok r
  /\ title r ≠ []
  /\ {| oe_level := py "H1"; oe_text := title r; oe_page := 1 |} ∈ outline r.
Proof.
  intros r.
  assert (app_extract_outline introduction_doc = Ok r) as H1 by (vm_compute; reflexivity).
  assert (title r ≠ []) as H2 by discriminate.
  split; [exact H1|]. split; [exact H2|].
  exact (X4_app_title_is_H1_entry introduction_doc r H1 H2).
Defined.

(** ** Normalisation: what the result is made of *)

Lemma collapse_ws_aux_chars b s :
  Forall (λ c, is_space c = true -> c = " "%char) (collapse_ws_aux b s).
Proof.
  revert b. induction s as [|c s IH]; intros b; simpl; [constructor|].
  destruct (is_space c) eqn:E.
  - destruct b; [apply IH|]. constructor; [done|apply IH].
  - constructor; [congruence|apply IH].
Qed.

Lemma drop_while_all {A} (p : A -> bool) l :
  Forall (λ x, p x = true) l -> drop_while p l = [].
Proof. induction 1 as [|x l Hx _ IH]; simpl; [done|]. by rewrite Hx. Qed.

(** X5: the normalised text is never longer than the raw text, holds only
    characters of the allow-list, and holds no whitespace character other
    than the plain space. *)
Theorem X5_clean_text_result t :
  (length (clean_text t) <= length t)%nat
  /\ Forall (λ c, is_allowed c = true /\ (is_space c = true -> c = " "%char)) (clean_text t).
Proof.
  split.
  - etrans; [apply clean_text_length_strip|apply strip_length].
  - unfold clean_text. destruct t as [|c0 t0]; [constructor|].
    apply Forall_forall. intros c Hc.
    apply list_elem_of_filter in Hc as [Ha Hc]. split; [done|].
    pose proof (collapse_ws_aux_chars false (strip (c0 :: t0))) as Hall.
    by eapply Forall_forall in Hall.
Qed.

(** X6: a text made of whitespace only is normalised to the empty string. *)
Theorem X6_clean_text_blank t :
  Forall (λ c, is_space c = true) t -> clean_text t = [].
Proof.
  intros Hall. unfold clean_text. destruct t as [|c0 t0]; [done|].
  unfold strip, lstrip. by rewrite (drop_while_all _ _ Hall).
Qed.

(** X6 at a concrete input. *)
Lemma X6_witness :
  Forall (λ c, is_space c = true) (py "   ") /\ clean_text (py "   ") = [].
Proof.
  assert (Forall (λ c, is_space c = true) (py "   ")) as H
    by (repeat constructor).
  split; [exact H|]. exact (X6_clean_text_blank _ H).
Defined.

(** ** Classification: what acceptance needs and what suffices *)

(** The function as its three filters followed by the score. *)
Lemma is_likely_heading_true_iff t font_size is_bold avg doc_stats :
  is_likely_heading t font_size is_bold avg doc_stats = true
  <-> t ≠ [] /\ (3 <= length (strip t))%nat /\ (length (split t) <= 20)%nat
      /\ (10 * count_digits t <= 3 * length t)%nat
      /\ (3 <= heading_score t font_size is_bold avg)%nat.
Proof.
  unfold is_likely_heading.
  destruct (decide (t = [])) as [->|Ht].
  { rewrite bool_decide_eq_true_2 by done. cbn [orb]. split; [done|]. by intros [? _]. }
  rewrite (bool_decide_eq_false_2 _ Ht). cbn [orb].
  destruct (Nat.ltb_spec (length (strip t)) 3) as [H3|H3].
  { split; [done|]. intros (_ & ? & _). lia. }
  destruct (Nat.ltb_spec 20 (length (split t))) as [H20|H20].
  { split; [done|]. intros (_ & _ & ? & _). lia. }
  destruct (decide (dec 0.3 < number_ratio t)) as [Hr|Hr].
  { rewrite bool_decide_eq_true_2 by done. split; [done|].
    intros (_ & _ & _ & ? & _). apply number_ratio_gt in Hr; [lia|done]. }
  rewrite bool_decide_eq_false_2 by done.
  rewrite number_ratio_gt in Hr by done.
  rewrite Nat.leb_le. split; [intros; repeat split; [done|lia..]|].
  by intros (_ & _ & _ & _ & ?).
Qed.

Lemma heading_score_mono t f1 f2 (b1 b2 : bool) avg :
  f1 ≤ f2 -> (b1 = true -> b2 = true) ->
  (heading_score t f1 b1 avg <= heading_score t f2 b2 avg)%nat.
Proof.
  intros Hf Hb. unfold heading_score.
  assert (forall x : Qc, bool_decide (x ≤ f1) = true -> bool_decide (x ≤ f2) = true) as Hm.
  { intros x. rewrite !bool_decide_eq_true. intros. by etrans. }
  pose proof (Hm (avg * dec 1.1)) as H1. pose proof (Hm (avg * dec 1.3)) as H2.
  destruct (bool_decide (avg * dec 1.1 ≤ f1)), (bool_decide (avg * dec 1.1 ≤ f2));
    try (by specialize (H1 eq_refl));
  destruct (bool_decide (avg * dec 1.3 ≤ f1)), (bool_decide (avg * dec 1.3 ≤ f2));
    try (by specialize (H2 eq_refl));
  destruct b1, b2; try (by specialize (Hb eq_refl));
  destruct (has_heading_pattern t), (is_title_case t), (length (split t) <=? 8); lia.
Qed.

(** X8: acceptance is monotonic in the font size and in boldness. A text
    accepted at some size is accepted at every larger size, and a text
    accepted when not bold is accepted when bold. *)
Theorem X8_acceptance_monotone t f1 f2 (b1 b2 : bool) avg doc_stats :
  f1 ≤ f2 -> (b1 = true -> b2 = true) ->
  is_likely_heading t f1 b1 avg doc_stats = true ->
  is_likely_heading t f2 b2 avg doc_stats = true.
Proof.
  intros Hf Hb. rewrite !is_likely_heading_true_iff.
  intros (? & ? & ? & ? & Hs). repeat split; [done..|].
  etrans; [exact Hs|]. by apply heading_score_mono.
Qed.

(** X8 at a concrete input. *)
Lemma X8_witness :
  of_Z 24 ≤ of_Z 30
  /\ is_likely_heading (py "INTRODUCTION") (of_Z 24) false (of_Z 12) no_stats = true
  /\ is_likely_heading (py "INTRODUCTION") (of_Z 30) true (of_Z 12) no_stats = true.
Proof.
  assert (of_Z 24 ≤ of_Z 30) as H1 by (vm_compute; discriminate).
  assert (is_likely_heading (py "INTRODUCTION") (of_Z 24) false (of_Z 12) no_stats = true)
    as H2 by (vm_compute; reflexivity).
  split; [exact H1|]. split; [exact H2|].
  exact (X8_acceptance_monotone _ _ _ false true _ no_stats H1 (λ _, eq_refl) H2).
Defined.

Lemma factor_le : dec 1.1 ≤ dec 1.3.
Proof. vm_compute. discriminate. Qed.

(** X9: text smaller than the average is never a heading unless it is
    bold or matches a pattern. A text that is not bold, matches no heading
    pattern and is smaller than a non-negative average size is rejected,
    whatever its capitalisation and length. *)
Theorem X9_small_plain_text_rejected t font_size avg doc_stats :
  0 ≤ avg -> font_size < avg -> has_heading_pattern t = false ->
  is_likely_heading t font_size false avg doc_stats = false.
Proof.
  intros Havg Hf Hp. apply not_true_is_false.
  rewrite is_likely_heading_true_iff. intros (_ & _ & _ & _ & Hs).
  assert (forall k : Qc, 1 ≤ k -> ¬ avg * k ≤ font_size) as Hk.
  { intros k Hk. apply Qclt_not_le. eapply Qclt_le_trans; [exact Hf|].
    rewrite <- (Qcmult_1_r avg) at 1. by apply Qcmult_le_mono_nonneg_l. }
  unfold heading_score in Hs. rewrite Hp in Hs.
  rewrite !bool_decide_eq_false_2 in Hs
    by (apply Hk; vm_compute; discriminate).
  destruct (is_title_case t), (length (split t) <=? 8); simpl in Hs; lia.
Qed.

(** X9 at a concrete input. *)
Lemma X9_witness :
  0 ≤ of_Z 12 /\ of_Z 11 < of_Z 12
  /\ has_heading_pattern (py "The Quick Brown Fox") = false
  /\ is_likely_heading (py "The Quick Brown Fox") (of_Z 11) false (of_Z 12) no_stats = false.
Proof.
  assert (0 ≤ of_Z 12) as H1 by (vm_compute; discriminate).
  assert (of_Z 11 < of_Z 12) as H2 by (vm_compute; reflexivity).
  assert (has_heading_pattern (py "The Quick Brown Fox") = false) as H3
    by (vm_compute; reflexivity).
  split; [exact H1|]. split; [exact H2|]. split; [exact H3|].
  exact (X9_small_plain_text_rejected _ _ _ no_stats H1 H2 H3).
Defined.

(** X10: past the three filters one strong signal suffices. A text that
    matches a heading pattern, or whose size is at least 1.3 times a
    non-negative average, is accepted whatever the rest. *)
Theorem X10_strong_signal_suffices t font_size is_bold avg doc_stats :
  (3 <= length (strip t))%nat ->
  (length (split t) <= 20)%nat ->
  (10 * count_digits t <= 3 * length t)%nat ->
  has_heading_pattern t = true \/ (0 ≤ avg /\ avg * dec 1.3 ≤ font_size) ->
  is_likely_heading t font_size is_bold avg doc_stats = true.
Proof.
  intros Hlen Hw Hr Hsig. apply is_likely_heading_true_iff.
  assert (t ≠ []) as Ht by (intros ->; vm_compute in Hlen; lia).
  repeat split; [done..|]. unfold heading_score.
  destruct Hsig as [Hp|[Havg Hf]].
  - rewrite Hp. lia.
  - rewrite (bool_decide_eq_true_2 (avg * dec 1.3 ≤ font_size)) by done.
    rewrite (bool_decide_eq_true_2 (avg * dec 1.1 ≤ font_size)); [lia|].
    etrans; [|exact Hf]. apply Qcmult_le_mono_nonneg_l; [done|apply factor_le].
Qed.

(** X10 at a concrete input. *)
Lemma X10_witness :
  (3 <= length (strip (py "3.2 results of the second run")))%nat
  /\ has_heading_pattern (py "3.2 results of the second run") = true
  /\ is_likely_heading (py "3.2 results of the second run")
       (of_Z 10) false (of_Z 12) no_stats = true.
Proof.
  assert (3 <= length (strip (py "3.2 results of the second run")))%nat as H1
    by (vm_compute; lia).
  assert (length (split (py "3.2 results of the second run")) <= 20)%nat as H2
    by (vm_compute; lia).
  assert (10 * count_digits (py "3.2 results of the second run")
          <= 3 * length (py "3.2 results of the second run"))%nat as H3
    by (vm_compute; lia).
  assert (has_heading_pattern (py "3.2 results of the second run") = true) as H4
    by (vm_compute; reflexivity).
  split; [exact H1|]. split; [exact H4|].
  exact (X10_strong_signal_suffices _ (of_Z 10) false (of_Z 12) no_stats H1 H2 H3
           (or_introl H4)).
Defined.

(** ** Font statistics: the sizes and their average *)

Lemma collect_stats_sizes d : (collect_stats d).1 = averaged_sizes d.
Proof. unfold collect_stats. by rewrite stat_step_sizes. Qed.

Lemma all_sizes_closed d :
  all_sizes (extract_font_statistics d) = sort_desc (remove_dups (averaged_sizes d)).
Proof.
  unfold extract_font_statistics. rewrite <- collect_stats_sizes.
  by destruct (collect_stats d).
Qed.

(** X11: [all_sizes] lists the sizes that enter the average, each once, in
    strictly descending order. *)
Theorem X11_all_sizes_strictly_descending d :
  StronglySorted (λ a b, b < a) (all_sizes (extract_font_statistics d))
  /\ NoDup (all_sizes (extract_font_statistics d))
  /\ forall s, s ∈ all_sizes (extract_font_statistics d) <-> s ∈ averaged_sizes d.
Proof.
  rewrite all_sizes_closed. split; [|split].
  - apply sort_desc_strict, NoDup_remove_dups.
  - rewrite sort_desc_perm. apply NoDup_remove_dups.
  - intros s. by rewrite sort_desc_perm, elem_of_remove_dups.
Qed.

(** ** Level resolution: composition, order and gaps *)

Lemma levels_sizes headings font_stats :
  tb_size <$> determine_heading_levels headings font_stats = tb_size <$> headings.
Proof.
  rewrite levels_by_rank. change map with (@fmap list _) at 1.
  rewrite <- list_fmap_compose. by apply list_fmap_ext.
Qed.

Lemma size_rank_sizes hs1 hs2 s :
  tb_size <$> hs1 = tb_size <$> hs2 -> size_rank hs1 s = size_rank hs2 s.
Proof. unfold size_rank. by intros ->. Qed.

Lemma size_rank_perm hs1 hs2 s :
  hs1 ≡ₚ hs2 -> size_rank hs1 s = size_rank hs2 s.
Proof.
  intros Hp. unfold size_rank. f_equal. apply filter_length_perm.
  apply NoDup_Permutation; [apply NoDup_remove_dups..|].
  intros x. by rewrite !elem_of_remove_dups, Hp.
Qed.

(** X13: resolving the levels of an already resolved list changes
    nothing, whatever statistics are passed. *)
Theorem X13_levels_idempotent headings font_stats font_stats' :
  determine_heading_levels (determine_heading_levels headings font_stats) font_stats'
  = determine_heading_levels headings font_stats.
Proof.
  rewrite (levels_by_rank (determine_heading_levels _ _)).
  rewrite (map_ext_in _
    (λ h, set_level (level_name (size_rank headings (tb_size h) `min` 6)) h)).
  2:{ intros h _. by rewrite (size_rank_sizes _ headings) by apply levels_sizes. }
  rewrite levels_by_rank, map_map. by apply map_ext.
Qed.

(** X14: the level of a candidate does not depend on the order of the
    candidates: permuting the input permutes the output. *)
Theorem X14_levels_permutation headings headings' font_stats font_stats' :
  headings ≡ₚ headings' ->
  determine_heading_levels headings font_stats
  ≡ₚ determine_heading_levels headings' font_stats'.
Proof.
  intros Hp. rewrite !levels_by_rank.
  rewrite (map_ext _
    (λ h, set_level (level_name (size_rank headings' (tb_size h) `min` 6)) h)).
  - by apply Permutation_map.
  - intros h. by rewrite (size_rank_perm headings headings').
Qed.

(** X14 at a concrete input. *)
Lemma X14_witness :
  two_sizes ≡ₚ sized_block <$> [20; 18]%Z
  /\ determine_heading_levels two_sizes no_stats
     ≡ₚ determine_heading_levels (sized_block <$> [20; 18]%Z) no_stats.
Proof.
  assert (two_sizes ≡ₚ sized_block <$> [20; 18]%Z) as H by apply Permutation_swap.
  split; [exact H|].
  exact (X14_levels_permutation _ _ no_stats no_stats H).
Defined.

Lemma strict_desc_lookup_lt (l : list Qc) i j x y :
  StronglySorted (λ a b, b < a) l -> (i < j)%nat ->
  l !! i = Some x -> l !! j = Some y -> y < x.
Proof.
  intros Hs. revert i j. induction Hs as [|z l Hs IH Hall]; intros i j Hij Hi Hj; [done|].
  destruct j as [|j]; [lia|]. simpl in Hj.
  destruct i as [|i]; simpl in Hi.
  - injection Hi as ->. eapply Forall_forall in Hall; [exact Hall|].
    by eapply list_elem_of_lookup_2.
  - apply (IH i j); [lia|done..].
Qed.

(** X15: the levels in use have no gap. When candidates exist one of
    largest size has H1, and whenever a candidate has the level numbered
    k+1 some candidate of larger size has the level numbered k. *)
Theorem X15_levels_without_gaps headings font_stats :
  (headings ≠ [] ->
     exists B, B ∈ determine_heading_levels headings font_stats
               /\ tb_level B = Some (py "H1")
               /\ forall A, A ∈ determine_heading_levels headings font_stats ->
                    tb_size A ≤ tb_size B)
  /\ (forall A k, A ∈ determine_heading_levels headings font_stats ->
        tb_level A = Some (level_name (S k)) -> (1 <= k)%nat ->
        exists B, B ∈ determine_heading_levels headings font_stats
                  /\ tb_level B = Some (level_name k)
                  /\ tb_size A < tb_size B).
Proof.
  set (sizes := tb_size <$> headings).
  set (keys := remove_dups sizes).
  assert (NoDup keys) as Hnd by apply NoDup_remove_dups.
  assert (forall s i, sort_desc keys !! i = Some s ->
            exists b, b ∈ headings /\ tb_size b = s /\ size_rank headings s = S i) as Hrank.
  { intros s i Hi.
    assert (s ∈ sizes) as Hs.
    { assert (s ∈ keys) as Hk
        by (rewrite <- (sort_desc_perm keys); by eapply list_elem_of_lookup_2).
      unfold keys in Hk. by rewrite elem_of_remove_dups in Hk. }
    apply list_elem_of_fmap in Hs as (b & -> & Hb). exists b. split; [done|]. split; [done|].
    unfold size_rank. fold sizes keys. f_equal.
    rewrite <- (filter_length_perm _ _ _ (sort_desc_perm keys)).
    apply strict_desc_index; [by apply sort_desc_strict|done]. }
  assert (forall b, b ∈ headings -> set_level (level_name (size_rank headings (tb_size b) `min` 6)) b
            ∈ determine_heading_levels headings font_stats) as Hout.
  { intros b Hb. rewrite levels_by_rank. apply list_elem_of_fmap. by exists b. }
  split.
  - intros Hne. destruct (sort_desc keys) as [|s0 r] eqn:Es.
    { apply (sorted_keys_nil keys sizes) in Es; [|done].
      apply fmap_nil_inv in Es. done. }
    destruct (Hrank s0 0%nat) as (b & Hb & Hsb & Hr); [by rewrite ?Es|].
    exists (set_level (level_name (size_rank headings (tb_size b) `min` 6)) b).
    split; [by apply Hout|]. cbn [tb_level set_level]. rewrite Hsb, Hr. split; [done|].
    intros A HA. apply elem_of_levels in HA as (a & Ha & -> & _).
    cbn [tb_size set_level]. rewrite Hsb.
    destruct (sorted_keys_head keys sizes s0 r) as [_ Hmax]; [done..|].
    by apply Hmax, list_elem_of_fmap_2.
  - intros A k HA HlA Hk.
    apply elem_of_levels in HA as (a & Ha & HsA & ->). cbn [tb_level set_level] in HlA.
    apply (f_equal (from_option level_ordinal 0%nat)) in HlA. cbn [from_option] in HlA.
    rewrite !level_ordinal_name in HlA.
    assert (tb_size a ∈ sort_desc keys) as Hin.
    { rewrite sort_desc_perm. apply elem_of_remove_dups. by apply list_elem_of_fmap_2. }
    apply list_elem_of_lookup in Hin as [i Hi].
    destruct (Hrank _ _ Hi) as (_ & _ & _ & Hri).
    assert (k - 1 < i)%nat as Hlt by lia.
    destruct (lookup_lt_is_Some_2 (sort_desc keys) (k - 1)) as [s' Hs'].
    { apply lookup_lt_Some in Hi. lia. }
    destruct (Hrank _ _ Hs') as (b & Hb & Hsb & Hrb).
    exists (set_level (level_name (size_rank headings (tb_size b) `min` 6)) b).
    split; [by apply Hout|]. cbn [tb_level tb_size set_level]. rewrite Hsb, Hrb.
    split; [do 2 f_equal; lia|].
    apply (strict_desc_lookup_lt (sort_desc keys) (k - 1) i); [|done..].
    by apply sort_desc_strict.
Qed.

(** X15 at a concrete input. *)
Lemma X15_witness :
  let out := determine_heading_levels two_sizes no_stats in
  let A := set_level (py "H2") (sized_block 18) in
  two_sizes ≠ [] /\ A ∈ out /\ tb_level A = Some (level_name 2)
  /\ (exists B, B ∈ out /\ tb_level B = Some (py "H1")
                /\ forall A', A' ∈ out -> tb_size A' ≤ tb_size B)
  /\ (exists B, B ∈ out /\ tb_level B = Some (level_name 1) /\ tb_size A < tb_size B).
Proof.
  intros out A.
  assert (two_sizes ≠ []) as H1 by discriminate.
  assert (A ∈ out) as H2.
  { apply list_elem_of_In. vm_compute. left. reflexivity. }
  assert (tb_level A = Some (level_name 2)) as H3 by reflexivity.
  split; [exact H1|]. split; [exact H2|]. split; [exact H3|].
  split.
  - exact (proj1 (X15_levels_without_gaps two_sizes no_stats) H1).
  - exact (proj2 (X15_levels_without_gaps two_sizes no_stats) A 1%nat H2 H3 (le_n 1)).
Defined.

(** ** Title resolution: what the suppression keeps *)

Lemma is_duplicate_existsb kept c : is_duplicate kept c = existsb (near_duplicate c) kept.
Proof. reflexivity. Qed.

Lemma near_duplicate_sym a b : near_duplicate a b = near_duplicate b a.
Proof.
  unfold near_duplicate. rewrite (Qcabs_Qcminus (tc_y a) (tc_y b)).
  f_equal. apply orb_comm.
Qed.

(** X16: the candidates kept by the suppression loop are a subsequence
    of the candidates given, no two of them are near-duplicates of each
    other, and every candidate given is either kept or a near-duplicate of
    a kept one. *)
Theorem X16_suppression_keeps_representatives (l : list TitleCandidate) :
  foldl filter_step [] l `sublist_of` l
  /\ StronglySorted (λ e c, near_duplicate c e = false /\ near_duplicate e c = false)
       (foldl filter_step [] l)
  /\ (forall c, c ∈ l ->
        c ∈ foldl filter_step [] l
        \/ exists e, e ∈ foldl filter_step [] l /\ near_duplicate c e = true).
Proof.
  induction l as [|x l (IH1 & IH2 & IH3)] using rev_ind.
  - split; [done|]. split; [constructor|]. intros c Hc. by apply elem_of_nil in Hc.
  - rewrite foldl_snoc. set (kept := foldl filter_step [] l) in *.
    unfold filter_step. rewrite is_duplicate_existsb.
    destruct (existsb (near_duplicate x) kept) eqn:E.
    + split; [by apply sublist_inserts_r|]. split; [done|].
      intros c Hc. apply elem_of_app in Hc as [Hc|Hc]; [by apply IH3|].
      apply list_elem_of_singleton in Hc as ->. right.
      apply existsb_exists in E as (e & He & Hd). exists e. split; [|done].
      by apply list_elem_of_In.
    + split; [by apply sublist_app|]. split.
      * apply StronglySorted_app. split; [|split; [done|repeat constructor]].
        intros e c He Hc. apply list_elem_of_singleton in Hc as ->.
        assert (near_duplicate x e = false) as Hd.
        { apply not_true_is_false. intros Hd.
          assert (existsb (near_duplicate x) kept = true) as Ht
            by (apply existsb_exists; exists e; split; [by apply list_elem_of_In|done]).
          congruence. }
        split; [done|]. by rewrite near_duplicate_sym.
      * intros c Hc. apply elem_of_app in Hc as [Hc|Hc].
        -- destruct (IH3 c Hc) as [H|(e & He & Hd)].
           ++ left. apply elem_of_app. by left.
           ++ right. exists e. split; [|done]. apply elem_of_app. by left.
        -- left. apply elem_of_app. by right.
Qed.

Lemma title_candidate_origin p c :
  c ∈ title_candidates p ->
  exists ln sp, (ln, sp) ∈ page_entries p
    /\ tc_text c = clean_text (span_text sp)
    /\ tc_size c = span_size sp /\ tc_y c = bbox_y0 ln
    /\ (2 <= length (split (tc_text c)))%nat /\ (10 <= length (tc_text c))%nat.
Proof.
  unfold title_candidates. intros Hc.
  apply list_elem_of_In, in_flat_map in Hc as ([ln sp] & He & Hc).
  exists ln, sp. split; [by apply list_elem_of_In|].
  destruct (bool_decide (clean_text (span_text sp) = [])); [done|]. cbn [negb andb] in Hc.
  destruct (Nat.leb_spec 2 (length (split (clean_text (span_text sp))))); [|done].
  destruct (Nat.leb_spec 10 (length (clean_text (span_text sp)))); [|done].
  by destruct Hc as [<-|[]].
Qed.

(** X17: when no span of page 1 qualifies as a title candidate the
    geometry strategy returns the literal Untitled Document; otherwise it
    returns the normalised text of a span of page 1, of at least 2 words
    and at least 10 characters. *)
Theorem X17_geometry_title_origin p :
  (title_candidates p = [] -> geometry_strategy p = untitled)
  /\ (title_candidates p ≠ [] ->
        exists ln sp, (ln, sp) ∈ page_entries p
          /\ geometry_strategy p = clean_text (span_text sp)
          /\ (2 <= length (split (geometry_strategy p)))%nat
          /\ (10 <= length (geometry_strategy p))%nat).
Proof.
  split.
  - intros E. unfold geometry_strategy. by rewrite E.
  - intros Hne. rewrite geometry_is_first_sorted. unfold first_sorted_title.
    destruct (sort_candidates (title_candidates p)) as [|c l] eqn:Es.
    { by apply sort_by_nil in Es. }
    apply (sort_by_head cand_le) in Es as [Hin _].
    + apply title_candidate_origin in Hin as (ln & sp & He & Ht & _ & _ & Hw & Hl).
      exists ln, sp. by rewrite <- Ht.
    + intros a b. apply key_le_total.
    + intros a b c1. apply key_le_trans.
Qed.

(** X17 at concrete inputs: a blank page, and a page with two candidates. *)
Lemma X17_witness :
  let p0 := hd [] (doc_pages blank_doc) in
  let p := hd [] (doc_pages two_titles_doc) in
  title_candidates p0 = [] /\ geometry_strategy p0 = untitled
  /\ title_candidates p ≠ []
  /\ exists ln sp, (ln, sp) ∈ page_entries p
       /\ geometry_strategy p = clean_text (span_text sp)
       /\ (2 <= length (split (geometry_strategy p)))%nat
       /\ (10 <= length (geometry_strategy p))%nat.
Proof.
  intros p0 p.
  assert (title_candidates p0 = []) as H0 by reflexivity.
  assert (title_candidates p ≠ []) as H by (vm_compute; discriminate).
  split; [exact H0|]. split; [exact (proj1 (X17_geometry_title_origin p0) H0)|].
  split; [exact H|]. exact (proj2 (X17_geometry_title_origin p) H).
Defined.

(** ** The outline *)

Lemma traverse_to_entry l :
  Forall (λ h, is_Some (tb_level h)) l -> traverse to_entry l = Ok (entry_of <$> l).
Proof.
  induction 1 as [|h l [lv Hlv] _ IH]; simpl; [done|].
  unfold to_entry at 1, entry_of at 1. rewrite Hlv, IH. done.
Qed.

Lemma levels_all_set headings font_stats :
  Forall (λ h, is_Some (tb_level h)) (determine_heading_levels headings font_stats).
Proof.
  apply Forall_forall. intros A HA.
  apply elem_of_levels in HA as (a & _ & _ & ->). by eexists.
Qed.

Lemma heading_le_total a b : heading_le a b = true \/ heading_le b a = true.
Proof.
  unfold heading_le.
  destruct (Nat.ltb_spec (tb_page a) (tb_page b)); [by left|].
  destruct (Nat.ltb_spec (tb_page b) (tb_page a)); [by right|].
  rewrite (proj2 (Nat.eqb_eq (tb_page a) (tb_page b))) by lia.
  rewrite (proj2 (Nat.eqb_eq (tb_page b) (tb_page a))) by lia.
  destruct (total Qcle (tb_y a) (tb_y b)) as [Hy|Hy];
    [left|right]; by rewrite (bool_decide_eq_true_2 _ Hy).
Qed.

Lemma heading_le_spec a b :
  heading_le a b = true
  <-> (tb_page a < tb_page b)%nat \/ (tb_page a = tb_page b /\ tb_y a ≤ tb_y b).
Proof.
  unfold heading_le.
  by rewrite orb_true_iff, andb_true_iff, Nat.ltb_lt, Nat.eqb_eq, bool_decide_eq_true.
Qed.

Lemma heading_le_trans a b c :
  heading_le a b = true -> heading_le b c = true -> heading_le a c = true.
Proof.
  rewrite !heading_le_spec. intros [H1|[E1 H1]] [H2|[E2 H2]].
  - left. lia.
  - left. lia.
  - left. lia.
  - right. split; [lia|]. by etrans.
Qed.

Lemma sort_headings_perm l : sort_headings l ≡ₚ l.
Proof. apply (sort_by_perm heading_le). Qed.

(** The sorted headings with their levels, before they are formatted. *)
Lemma outline_body_closed d :
  extract_outline_body d
  = bind (extract_title_from_pdf d) (λ t,
      Ok {| title := t;
            outline :=
              entry_of <$> sort_headings
                (determine_heading_levels (accepted_blocks d) (extract_font_statistics d)) |}).
Proof.
  unfold extract_outline_body. fold (accepted_blocks d).
  destruct (extract_title_from_pdf d) as [t|e]; [|done]. simpl.
  rewrite traverse_to_entry; [done|].
  rewrite sort_headings_perm. apply levels_all_set.
Qed.

(** X18: a document without pages whose metadata title has at most 3
    characters once trimmed, or is missing, yields the record Error
    Processing Document with an empty outline: reading page 1 raises and
    the handler answers. *)
Theorem X18_no_pages_no_title_gives_error d :
  doc_pages d = [] ->
  (length (strip (default [] (doc_metadata_title d))) <= 3)%nat ->
  extract_title_from_pdf d = Raise IndexError
  /\ extract_outline d = error_result.
Proof.
  intros Hp Hm.
  assert (extract_title_from_pdf d = Raise IndexError) as Ht.
  { unfold extract_title_from_pdf, metadata_strategy.
    rewrite (proj2 (Nat.ltb_ge _ _) Hm), andb_false_r. by rewrite Hp. }
  split; [done|].
  unfold extract_outline. rewrite outline_body_closed. by rewrite Ht.
Qed.

(** X18 at a concrete input: no pages, and a title of three characters. *)
Lemma X18_witness :
  let d := {| doc_metadata_title := Some (py " abc "); doc_pages := [] |} in
  doc_pages d = []
  /\ (length (strip (default [] (doc_metadata_title d))) <= 3)%nat
  /\ extract_title_from_pdf d = Raise IndexError
  /\ extract_outline d = error_result.
Proof.
  intros d.
  assert (doc_pages d = []) as H1 by reflexivity.
  assert (length (strip (default [] (doc_metadata_title d))) <= 3)%nat as H2
    by (vm_compute; lia).
  split; [exact H1|]. split; [exact H2|].
  exact (X18_no_pages_no_title_gives_error d H1 H2).
Defined.

(** What an entry of the outline comes from. *)
Lemma outline_entry_origin d e :
  e ∈ outline (extract_outline d) ->
  exists b lv, b ∈ accepted_blocks d /\ lv ∈ level_names
    /\ e = {| oe_level := lv; oe_text := tb_text b; oe_page := tb_page b |}.
Proof.
  unfold extract_outline. rewrite outline_body_closed.
  destruct (extract_title_from_pdf d) as [t|x]; simpl;
    [|intros He; by apply elem_of_nil in He].
  intros He. apply list_elem_of_fmap in He as (h & -> & Hh).
  rewrite sort_headings_perm in Hh.
  apply elem_of_levels in Hh as (b & Hb & _ & ->).
  exists b, (level_name (size_rank (accepted_blocks d) (tb_size b) `min` 6)).
  split; [done|]. split; [|done].
  apply level_name_in. pose proof (size_rank_pos (accepted_blocks d) (tb_size b)). lia.
Qed.

(** X19: every entry of the outline has one of the six level names, the
    normalised text, of at least 3 characters, of a span that the
    classifier accepts, and the number of an existing page. *)
Theorem X19_outline_entries_well_formed d e :
  e ∈ outline (extract_outline d) ->
  oe_level e ∈ level_names
  /\ (3 <= length (oe_text e))%nat
  /\ (1 <= oe_page e <= length (doc_pages d))%nat
  /\ exists sp, sp ∈ doc_spans d /\ oe_text e = clean_text (span_text sp)
       /\ is_likely_heading (oe_text e) (round1 (span_size sp))
            (is_substring (py "Bold") (default [] (span_font sp))
             || is_substring (py "bold") (lower (default [] (span_font sp))))
            (avg_font_size (extract_font_statistics d)) (extract_font_statistics d) = true.
Proof.
  intros He. apply outline_entry_origin in He as (b & lv & Hb & Hlv & ->).
  cbn [oe_level oe_text oe_page]. unfold accepted_blocks in Hb.
  apply list_elem_of_filter in Hb as [Hacc Hb].
  unfold text_blocks in Hb.
  apply list_elem_of_In, in_flat_map in Hb as ([n p] & Hnp & Hb).
  apply list_elem_of_In, elem_of_lookup_imap in Hnp as (i & q & [= -> ->] & Hq).
  unfold text_blocks_of_page in Hb. apply in_flat_map in Hb as ([ln sp] & Hent & Hb).
  destruct (bool_decide (clean_text (span_text sp) = [])
            || (length (clean_text (span_text sp)) <? 3)) eqn:E; [done|].
  apply orb_false_iff in E as [_ E]. apply Nat.ltb_ge in E.
  destruct Hb as [<-|[]]. cbn [tb_text tb_page tb_size tb_bold] in *.
  pose proof (lookup_lt_Some _ _ _ Hq).
  split; [done|]. split; [done|]. split; [lia|]. exists sp.
  split; [|done].
  apply (page_span_in_doc d q (ln, sp)); [by eapply list_elem_of_lookup_2|].
  by apply list_elem_of_In.
Qed.

(** X19 at a concrete input. *)
Lemma X19_witness :
  let e := {| oe_level := py "H1"; oe_text := py "INTRODUCTION"; oe_page := 1 |} in
  e ∈ outline (extract_outline introduction_doc)
  /\ oe_level e ∈ level_names
  /\ (1 <= oe_page e <= length (doc_pages introduction_doc))%nat.
Proof.
  intros e.
  assert (e ∈ outline (extract_outline introduction_doc)) as H.
  { apply list_elem_of_In. vm_compute. left. reflexivity. }
  split; [exact H|].
  destruct (X19_outline_entries_well_formed introduction_doc e H) as (H1 & _ & H3 & _).
  split; [exact H1|exact H3].
Defined.

(** X20: the outline is in the order of the pages: the page numbers of
    its entries never decrease. *)
Theorem X20_outline_pages_ascending d :
  StronglySorted (λ a b, (oe_page a <= oe_page b)%nat) (outline (extract_outline d)).
Proof.
  unfold extract_outline. rewrite outline_body_closed.
  destruct (extract_title_from_pdf d) as [t|x]; simpl; [|constructor].
  apply (StronglySorted_fmap _ (λ a b, heading_le a b = true)).
  - intros a b. rewrite heading_le_spec. simpl. lia.
  - apply (sort_by_sorted heading_le heading_le_total heading_le_trans).
Qed.

(** X21: when the title can be resolved, that is when the document has a
    page or a usable metadata title, the outline has exactly one entry for
    each accepted text block: nothing is dropped and nothing is doubled. *)
Theorem X21_outline_one_entry_per_heading d :
  doc_pages d ≠ [] \/ metadata_strategy d ≠ None ->
  exists t,
    extract_outline d
    = {| title := t;
         outline :=
           entry_of <$> sort_headings
             (determine_heading_levels (accepted_blocks d) (extract_font_statistics d)) |}
    /\ extract_title_from_pdf d = Ok t
    /\ length (outline (extract_outline d)) = length (accepted_blocks d).
Proof.
  intros Hd. unfold extract_outline. rewrite outline_body_closed.
  assert (exists t, extract_title_from_pdf d = Ok t) as [t Ht].
  { unfold extract_title_from_pdf.
    destruct (metadata_strategy d); [by eexists|].
    destruct (doc_pages d); [by destruct Hd|by eexists]. }
  rewrite Ht. simpl. exists t. split; [done|]. split; [done|].
  rewrite length_fmap, sort_headings_perm, levels_by_rank. apply length_map.
Qed.

(** X21 at a concrete input. *)
Lemma X21_witness :
  doc_pages introduction_doc ≠ []
  /\ exists t,
       extract_outline introduction_doc
       = {| title := t;
            outline :=
              entry_of <$> sort_headings
                (determine_heading_levels (accepted_blocks introduction_doc)
                   (extract_font_statistics introduction_doc)) |}
       /\ extract_title_from_pdf introduction_doc = Ok t
       /\ length (outline (extract_outline introduction_doc))
          = length (accepted_blocks introduction_doc).
Proof.
  assert (doc_pages introduction_doc ≠ []) as H by discriminate.
  split; [exact H|].
  exact (X21_outline_one_entry_per_heading introduction_doc (or_introl H)).
Defined.

(** ** Font statistics: the most common font *)

Section Counter.
Context {K : Type} `{EqDecision K}.

Lemma counter_add_count (k k' : K) n c :
  counter_count k' (counter_add k n c)
  = (counter_count k' c + (if decide (k = k') then n else 0))%nat.
Proof.
  unfold counter_count. induction c as [|[k0 m] c IH]; simpl.
  - destruct (decide (k = k')) as [->|Hne].
    + by rewrite filter_cons_True.
    + by rewrite filter_cons_False.
  - destruct (decide (k0 = k)) as [->|Hne0].
    + destruct (decide (k = k')) as [->|Hne].
      * rewrite !filter_cons_True by done. simpl. lia.
      * rewrite !filter_cons_False by done. lia.
    + destruct (decide (k0 = k')) as [->|Hne'].
      * rewrite !filter_cons_True by done. simpl. rewrite IH. lia.
      * rewrite !filter_cons_False by done. apply IH.
Qed.

Lemma counter_add_keys (k : K) n c k' :
  k' ∈ (counter_add k n c).*1 <-> k' = k \/ k' ∈ c.*1.
Proof.
  induction c as [|[k0 m] c IH]; simpl.
  - rewrite list_elem_of_singleton, elem_of_nil. tauto.
  - destruct (decide (k0 = k)) as [->|Hne]; simpl.
    + rewrite !elem_of_cons. tauto.
    + rewrite !elem_of_cons, IH. tauto.
Qed.

Lemma counter_add_NoDup (k : K) n c : NoDup c.*1 -> NoDup (counter_add k n c).*1.
Proof.
  induction c as [|[k0 m] c IH]; simpl; intros Hnd.
  - repeat constructor. apply not_elem_of_nil.
  - apply NoDup_cons in Hnd as [Hk0 Hnd].
    destruct (decide (k0 = k)) as [->|Hne]; simpl.
    + by apply NoDup_cons.
    + apply NoDup_cons. split; [|by apply IH].
      rewrite counter_add_keys. intros [?|?]; [done|by destruct Hk0].
Qed.

Lemma counter_count_absent (k : K) c : k ∉ c.*1 -> counter_count k c = 0%nat.
Proof.
  unfold counter_count. induction c as [|[k0 m] c IH]; simpl; intros Hk; [done|].
  apply not_elem_of_cons in Hk as [Hne Hk].
  rewrite filter_cons_False by (simpl; congruence). by apply IH.
Qed.

Lemma counter_count_entry (k : K) m c :
  NoDup c.*1 -> (k, m) ∈ c -> counter_count k c = m.
Proof.
  unfold counter_count. induction c as [|[k0 m0] c IH]; simpl; intros Hnd Hin.
  - by apply elem_of_nil in Hin.
  - apply NoDup_cons in Hnd as [Hk0 Hnd].
    apply elem_of_cons in Hin as [[= <- <-]|Hin].
    + rewrite filter_cons_True by done. simpl.
      fold (counter_count k c). rewrite counter_count_absent by done. lia.
    + rewrite filter_cons_False; [by apply IH|].
      simpl. intros ->. apply Hk0. apply list_elem_of_fmap. by exists (k, m).
Qed.

(** The entry returned has the largest count. *)
Lemma most_common1_spec (best : K * nat) c :
  most_common1 best c ∈ best :: c
  /\ forall e, e ∈ best :: c -> (e.2 <= (most_common1 best c).2)%nat.
Proof.
  revert best. induction c as [|e0 c IH]; intros best; simpl.
  - split; [left|]. intros e He. apply list_elem_of_singleton in He as ->. lia.
  - destruct (IH (if best.2 <? e0.2 then e0 else best)) as [Hin Hmax].
    split.
    + apply elem_of_cons in Hin as [->|Hin].
      * destruct (best.2 <? e0.2); [right; left|left].
      * by do 2 right.
    + intros e He.
      assert (best.2 <= (most_common1 (if best.2 <? e0.2 then e0 else best) c).2
              /\ e0.2 <= (most_common1 (if best.2 <? e0.2 then e0 else best) c).2)%nat
        as [Hb He0].
      { pose proof (Hmax _ (list_elem_of_here _ _)) as H0.
        destruct (Nat.ltb_spec best.2 e0.2); lia. }
      apply elem_of_cons in He as [->|He]; [done|].
      apply elem_of_cons in He as [->|He]; [done|].
      apply Hmax. by right.
Qed.
End Counter.

Lemma weight_in_cons sp spans k :
  weight_in (sp :: spans) k
  = ((if decide (trimmed_qualifies sp /\ span_key sp = k)
      then length (strip (span_text sp)) else 0) + weight_in spans k)%nat.
Proof.
  unfold weight_in. destruct (decide _) as [H|H].
  - by rewrite filter_cons_True.
  - by rewrite filter_cons_False.
Qed.

(** What the loop leaves in [font_counts]. *)
Lemma stat_step_counts spans font_sizes font_counts :
  let c := (foldl stat_step (font_sizes, font_counts) spans).2 in
  (NoDup font_counts.*1 -> NoDup c.*1)
  /\ (forall k, counter_count k c = (counter_count k font_counts + weight_in spans k)%nat)
  /\ (forall k, k ∈ c.*1 <->
        k ∈ font_counts.*1
        \/ exists sp, sp ∈ spans /\ trimmed_qualifies sp /\ span_key sp = k).
Proof.
  revert font_sizes font_counts.
  induction spans as [|sp spans IH]; intros font_sizes font_counts; simpl.
  - split; [done|]. split.
    + intros k. unfold weight_in. simpl. lia.
    + intros k. split; [by left|]. intros [?|(sp & Hsp & _)]; [done|].
      by apply elem_of_nil in Hsp.
  - destruct (decide (trimmed_qualifies sp)) as [Hq|Hq]; unfold trimmed_qualifies in Hq.
    + rewrite bool_decide_eq_false_2 by (intros E; rewrite E in Hq; simpl in Hq; lia).
      rewrite (proj2 (Nat.ltb_lt _ _) Hq). simpl.
      destruct (IH (font_sizes ++ [round1 (span_size sp)])
                   (counter_add (round1 (span_size sp), default [] (span_font sp))
                      (length (strip (span_text sp))) font_counts)) as (I1 & I2 & I3).
      split; [|split].
      * intros Hnd. by apply I1, counter_add_NoDup.
      * intros k. rewrite I2, counter_add_count, weight_in_cons.
        fold (span_key sp).
        destruct (decide (span_key sp = k)) as [Hk|Hk].
        -- rewrite decide_True by done. lia.
        -- rewrite decide_False by tauto. lia.
      * intros k. rewrite I3, counter_add_keys. fold (span_key sp). split.
        -- intros [[->|?]|(sp' & Hsp' & ? & ?)].
           ++ right. exists sp. split; [left|done].
           ++ by left.
           ++ right. exists sp'. split; [by right|done].
        -- intros [?|(sp' & Hsp' & Hq' & Hk')]; [by left; right|].
           apply elem_of_cons in Hsp' as [->|Hsp']; [by left; left|].
           right. by exists sp'.
    + rewrite (proj2 (Nat.ltb_ge _ _)) by lia. rewrite andb_false_r.
      destruct (IH font_sizes font_counts) as (I1 & I2 & I3).
      split; [done|]. split.
      * intros k. rewrite I2, weight_in_cons. rewrite decide_False by tauto. lia.
      * intros k. rewrite I3. split.
        -- intros [?|(sp' & Hsp' & ? & ?)]; [by left|].
           right. exists sp'. split; [by right|done].
        -- intros [?|(sp' & Hsp' & Hq' & Hk')]; [by left|].
           apply elem_of_cons in Hsp' as [->|Hsp']; [done|].
           right. by exists sp'.
Qed.

(** X22: [most_common_font] is the size and font name of a qualifying
    span, and no size and font name carries more characters; when no span
    qualifies it is the default, 12 with the empty name. *)
Theorem X22_most_common_font_heaviest d :
  ((forall sp, sp ∈ doc_spans d -> ¬ trimmed_qualifies sp) ->
     most_common_font (extract_font_statistics d) = (of_Z 12, []))
  /\ (forall sp0, sp0 ∈ doc_spans d -> trimmed_qualifies sp0 ->
        exists sp, sp ∈ doc_spans d /\ trimmed_qualifies sp
          /\ most_common_font (extract_font_statistics d) = span_key sp
          /\ forall sp', sp' ∈ doc_spans d -> trimmed_qualifies sp' ->
               (font_weight d (span_key sp') <= font_weight d (span_key sp))%nat).
Proof.
  destruct (stat_step_counts (doc_spans d) [] []) as (I1 & I2 & I3).
  unfold extract_font_statistics, collect_stats.
  destruct (foldl stat_step ([], []) (doc_spans d)) as [font_sizes font_counts].
  simpl in I1, I2, I3. specialize (I1 (NoDup_nil_2)). simpl.
  assert (forall k m, (k, m) ∈ font_counts -> m = font_weight d k) as Hw.
  { intros k m Hin. rewrite <- (counter_count_entry k m font_counts I1 Hin).
    rewrite I2. by unfold counter_count. }
  split.
  - intros Hno. destruct font_counts as [|[k m] c]; [done|].
    destruct (proj1 (I3 k)) as [H|(sp & Hsp & Hq & _)]; [left| |].
    + by apply elem_of_nil in H.
    + by destruct (Hno sp).
  - intros sp0 Hsp0 Hq0.
    assert (span_key sp0 ∈ font_counts.*1) as Hk0 by (apply I3; right; by exists sp0).
    destruct font_counts as [|e c] eqn:Ec; [by apply elem_of_nil in Hk0|].
    destruct (most_common1_spec e c) as [Hin Hmax].
    destruct (most_common1 e c) as [k m] eqn:Er. simpl.
    destruct (proj1 (I3 k)) as [H|(sp & Hsp & Hq & Hk)].
    { apply list_elem_of_fmap. by exists (k, m). }
    { by apply elem_of_nil in H. }
    exists sp. split; [done|]. split; [done|]. split; [done|].
    intros sp' Hsp' Hq'.
    assert (span_key sp' ∈ (e :: c).*1) as Hk' by (apply I3; right; by exists sp').
    apply list_elem_of_fmap in Hk' as ([k' m'] & Ek' & Hin'). simpl in Ek'. subst k'.
    rewrite Hk, <- (Hw _ _ Hin), <- (Hw _ _ Hin').
    apply (Hmax _ Hin').
Qed.

(** X22 at a concrete input. *)
Lemma X22_witness :
  let sp0 := mk_span "INTRODUCTION" (of_Z 24) in
  sp0 ∈ doc_spans introduction_doc /\ trimmed_qualifies sp0
  /\ exists sp, sp ∈ doc_spans introduction_doc /\ trimmed_qualifies sp
       /\ most_common_font (extract_font_statistics introduction_doc) = span_key sp
       /\ forall sp', sp' ∈ doc_spans introduction_doc -> trimmed_qualifies sp' ->
            (font_weight introduction_doc (span_key sp')
             <= font_weight introduction_doc (span_key sp))%nat.
Proof.
  intros sp0.
  assert (sp0 ∈ doc_spans introduction_doc) as H1 by left.
  assert (trimmed_qualifies sp0) as H2 by (unfold trimmed_qualifies; vm_compute; lia).
  split; [exact H1|]. split; [exact H2|].
  exact (proj2 (X22_most_common_font_heaviest introduction_doc) sp0 H1 H2).
Defined.

(** ** Further theorems at concrete inputs *)

(** X1 at a concrete input: a page with one blank span. *)
Lemma X1_witness :
  app_blocks blank_doc = []
  /\ app_extract_outline blank_doc = Ok {| title := []; outline := [] |}.
Proof.
  assert (app_blocks blank_doc = []) as H by reflexivity.
  split; [exact H|]. exact (proj2 (X1_app_index_in_range blank_doc) H).
Defined.

(** X5 at a concrete input: blanks around and inside, and an artifact. *)
Lemma X5_witness :
  clean_text (py "  Hello   wor@ld  ") = py "Hello world"
  /\ (length (clean_text (py "  Hello   wor@ld  ")) <= length (py "  Hello   wor@ld  "))%nat
  /\ Forall (λ c, is_allowed c = true /\ (is_space c = true -> c = " "%char))
       (clean_text (py "  Hello   wor@ld  ")).
Proof.
  split; [vm_compute; reflexivity|].
  exact (X5_clean_text_result (py "  Hello   wor@ld  ")).
Defined.

(** X11 at a concrete input: the size 24 of the worked example. *)
Lemma X11_witness :
  of_Z 24 ∈ averaged_sizes introduction_doc
  /\ of_Z 24 ∈ all_sizes (extract_font_statistics introduction_doc).
Proof.
  assert (of_Z 24 ∈ averaged_sizes introduction_doc) as H.
  { apply list_elem_of_In. left. apply Qc_is_canon. vm_compute. reflexivity. }
  split; [exact H|].
  exact (proj2 (proj2 (proj2 (X11_all_sizes_strictly_descending introduction_doc)) _) H).
Defined.

(** X16 at a concrete input: the second candidate repeats the first. *)
Lemma X16_witness :
  let c := {| tc_text := py "annual report"; tc_size := of_Z 20; tc_y := of_Z 52;
              tc_bold := false |} in
  c ∈ repeated_title
  /\ length (foldl filter_step [] repeated_title) = 2%nat
  /\ (c ∈ foldl filter_step [] repeated_title
      \/ exists e, e ∈ foldl filter_step [] repeated_title /\ near_duplicate c e = true).
Proof.
  intros c.
  assert (c ∈ repeated_title) as H by (right; left).
  split; [exact H|]. split; [vm_compute; reflexivity|].
  exact (proj2 (proj2 (X16_suppression_keeps_representatives repeated_title)) c H).
Defined.
